(** * Invoice reconciliation: a model of [gem_updated.py]

    The program reads a spreadsheet of invoice lines, asks a document
    service for the line items of the scanned invoice, keeps the items
    whose code the spreadsheet knows, joins both sides on the code and
    classifies every joined row and three grand totals as match or
    mismatch.

    The model follows the source function by function.  Numbers are
    IEEE 754 binary64 values, as Python floats are; text is ASCII text;
    a raised exception is a value of [result].  The first part holds the
    definitions, the second part the lemmas and theorems. *)

From Stdlib Require Import ZArith List String Ascii Bool Lia Permutation.
From Stdlib Require Import SpecFloat.
Import ListNotations.

Open Scope string_scope.
Open Scope nat_scope.

(* ================================================================= *)
(** ** Exceptions *)

(** The exceptions the modelled code can raise. *)
Inductive exn : Type :=
| IndexError
| KeyError
| ValueError
| ZeroDivisionError.

(** A computation either returns a value or raises. *)
Inductive result (A : Type) : Type :=
| Ok (a : A)
| Raise (e : exn).

Arguments Ok {A} a.
Arguments Raise {A} e.

Definition bind {A B : Type} (c : result A) (k : A -> result B) : result B :=
  match c with
  | Ok a => k a
  | Raise e => Raise e
  end.

Declare Scope py_scope.
Delimit Scope py_scope with py.
Notation "x <- c ;; k" := (bind c (fun x => k))
  (at level 61, c at next level, right associativity) : py_scope.
Open Scope py_scope.

(** [try: body / except: handler], with a bare [except] that catches
    every exception. *)
Definition try_except {A : Type} (body handler : result A) : result A :=
  match body with
  | Ok a => Ok a
  | Raise _ => handler
  end.

(** [Series.apply(f)]: the calls are made in order, the first exception
    ends the run. *)
Fixpoint apply_each {A B : Type} (f : A -> result B) (l : list A) : result (list B) :=
  match l with
  | [] => Ok []
  | a :: l' => b <- f a ;; bs <- apply_each f l' ;; Ok (b :: bs)
  end.

(* ================================================================= *)
(** ** Python floats *)

Module Float.

(** A Python float is a binary64 value: 53 bits of precision, largest
    exponent 1024. *)
Definition float : Type := spec_float.
Definition prec : Z := 53.
Definition emax : Z := 1024.

Definition zero : float := S754_zero false.
Definition nan : float := S754_nan.

Definition abs : float -> float := SFabs.
Definition add : float -> float -> float := SFadd prec emax.
Definition sub : float -> float -> float := SFsub prec emax.
Definition mul : float -> float -> float := SFmul prec emax.
Definition div : float -> float -> float := SFdiv prec emax.

Definition eqb : float -> float -> bool := SFeqb.
Definition ltb : float -> float -> bool := SFltb.
Definition leb : float -> float -> bool := SFleb.

Definition is_nan (x : float) : bool :=
  match x with
  | S754_nan => true
  | _ => false
  end.

(** An integer as the operand of a correctly rounded operation: the
    mantissa is the integer itself, not yet rounded to 53 bits. *)
Definition exact_int (n : Z) : float :=
  match n with
  | Z0 => S754_zero false
  | Zpos p => S754_finite false p 0
  | Zneg p => S754_finite true p 0
  end.

(** [float(n)] for an integer [n], rounded to nearest even. *)
Definition of_int (n : Z) : float := binary_normalize prec emax n 0 false.

(** The decimal number [n / 10^k] rounded to the nearest float, which is
    what [float] returns for the text of that decimal. *)
Definition decimal (n : Z) (k : nat) : float :=
  div (exact_int n) (exact_int (10 ^ Z.of_nat k)).

(** [a / b] on Python integers: the correctly rounded quotient, or
    [ZeroDivisionError]. *)
Definition int_truediv (a b : Z) : result float :=
  if (b =? 0)%Z then Raise ZeroDivisionError
  else Ok (div (exact_int a) (exact_int b)).

(** The sign bit is clear (a NaN carries no sign in this representation). *)
Definition sign_clear (x : float) : bool :=
  match x with
  | S754_zero s | S754_infinity s | S754_finite s _ _ => negb s
  | S754_nan => true
  end.

(** [x >= 0] as Python evaluates it: false for a NaN. *)
Definition nonneg (x : float) : bool := leb zero x.

(** What rounding a non-negative mantissa under the sign [s] can give. *)
Definition signed_as (s : bool) (x : float) : Prop :=
  match x with
  | S754_zero s' | S754_infinity s' | S754_finite s' _ _ => s' = s
  | S754_nan => False
  end.

End Float.

Definition float : Type := Float.float.

(* ================================================================= *)
(** ** Python text *)

Module Str.

Definition code (c : ascii) : nat := nat_of_ascii c.

Definition is_digit (c : ascii) : bool :=
  (48 <=? code c) && (code c <=? 57).

(** The ASCII characters [str.isspace] accepts: tab to carriage return,
    the four separators 28 to 31 and the space. *)
Definition is_space (c : ascii) : bool :=
  ((9 <=? code c) && (code c <=? 13))
  || ((28 <=? code c) && (code c <=? 31))
  || (code c =? 32).

Definition is_empty (s : string) : bool :=
  match s with
  | EmptyString => true
  | String _ _ => false
  end.

Fixpoint lstrip (s : string) : string :=
  match s with
  | EmptyString => EmptyString
  | String c r => if is_space c then lstrip r else s
  end.

Fixpoint rstrip (s : string) : string :=
  match s with
  | EmptyString => EmptyString
  | String c r =>
      let r' := rstrip r in
      if is_space c && is_empty r' then EmptyString else String c r'
  end.

(** [s.strip()] *)
Definition strip (s : string) : string := rstrip (lstrip s).

Definition lower_char (c : ascii) : ascii :=
  if (65 <=? code c) && (code c <=? 90) then ascii_of_nat (code c + 32) else c.

(** [s.lower()] *)
Fixpoint lower (s : string) : string :=
  match s with
  | EmptyString => EmptyString
  | String c r => String (lower_char c) (lower r)
  end.

(** [pat in s] *)
Fixpoint contains (pat s : string) : bool :=
  prefix pat s ||
  match s with
  | EmptyString => false
  | String _ r => contains pat r
  end.

(** [s.replace(pat, '')] for a non-empty [pat]: the occurrences are
    found from the left and do not overlap.  [skip] counts the characters
    of an occurrence still to be dropped. *)
Fixpoint remove_from (pat : string) (skip : nat) (s : string) : string :=
  match s with
  | EmptyString => EmptyString
  | String c r =>
      match skip with
      | S k => remove_from pat k r
      | O =>
          if prefix pat s then remove_from pat (String.length pat - 1) r
          else String c (remove_from pat 0 r)
      end
  end.

Definition remove_all (pat s : string) : string := remove_from pat 0 s.

(** [re.sub(r'[^0-9.]', '', s)] *)
Fixpoint sub_non_numeric (s : string) : string :=
  match s with
  | EmptyString => EmptyString
  | String c r =>
      if is_digit c || Ascii.eqb c "."%char then String c (sub_non_numeric r)
      else sub_non_numeric r
  end.

(** A text of digits and points only. *)
Fixpoint numeric_text (s : string) : bool :=
  match s with
  | EmptyString => true
  | String c r => (is_digit c || Ascii.eqb c "."%char) && numeric_text r
  end.

Fixpoint all_digits (s : string) : bool :=
  match s with
  | EmptyString => true
  | String c r => is_digit c && all_digits r
  end.

(** The value of a run of decimal digits, [acc] holding the digits read
    so far. *)
Fixpoint digits_value (acc : Z) (s : string) : Z :=
  match s with
  | EmptyString => acc
  | String c r => digits_value (10 * acc + (Z.of_nat (code c) - 48)) r
  end.

(** The text before the first point and, when there is a point, the text
    after it. *)
Fixpoint split_point (s : string) : string * option string :=
  match s with
  | EmptyString => (EmptyString, None)
  | String c r =>
      if Ascii.eqb c "."%char then (EmptyString, Some r)
      else let (a, b) := split_point r in (String c a, b)
  end.

(** [float(s)] for a text of digits and points, which is all
    [sub_non_numeric] leaves: digits with at most one point and at least
    one digit make a number, anything else raises [ValueError] (the empty
    text, a lone point, two points). *)
Definition to_float (s : string) : result float :=
  match split_point s with
  | (ip, None) =>
      if all_digits ip && negb (is_empty ip)
      then Ok (Float.decimal (digits_value 0 ip) 0)
      else Raise ValueError
  | (ip, Some fp) =>
      if all_digits ip && all_digits fp && negb (is_empty ip && is_empty fp)
      then Ok (Float.decimal (digits_value 0 (ip ++ fp)) (String.length fp))
      else Raise ValueError
  end.

End Str.

(* ================================================================= *)
(** ** [clean_num_strict] *)

(** A currency value of the document service. *)
Record CurrencyValue : Type := { amount : float }.

(** A field of the analysed document, with the three attributes the
    program reads. *)
Record DocumentField : Type := {
  value_number : option float;
  value_currency : option CurrencyValue;
  content : option string
}.

(** [str(x)] for an attribute that is a text or [None]. *)
Definition str_of_content (c : option string) : string :=
  match c with
  | Some s => s
  | None => "None"
  end.

(** [clean_num_strict(field)]; an absent field is [None].  A field object
    that is falsy because it holds nothing has no number, no currency and
    no content, and runs to the same [0.0] through the last branch. *)
Definition clean_num_strict (field : option DocumentField) : result float :=
  match field with
  | None => Ok Float.zero
  | Some f =>
      match value_number f with
      | Some n => Ok (Float.abs n)
      | None =>
          match value_currency f with
          | Some cur => Ok (Float.abs (amount cur))
          | None =>
              let cleaned := Str.sub_non_numeric (str_of_content (content f)) in
              try_except
                (if Str.is_empty cleaned then Ok Float.zero else Str.to_float cleaned)
                (Ok Float.zero)
          end
      end
  end.

(** The number [clean_num_strict] takes from the structured attributes,
    when the field has one. *)
Definition structured_value (field : option DocumentField) : option float :=
  match field with
  | None => None
  | Some f =>
      match value_number f with
      | Some n => Some n
      | None => option_map amount (value_currency f)
      end
  end.

(* ================================================================= *)
(** ** [extract_gross_total_qty] *)

Module Regex.

(** The text after [lit] when [s] starts with [lit], letter case ignored. *)
Fixpoint match_ci (lit s : string) : option string :=
  match lit, s with
  | EmptyString, _ => Some s
  | String _ _, EmptyString => None
  | String a lit', String b s' =>
      if Ascii.eqb (Str.lower_char a) (Str.lower_char b) then match_ci lit' s' else None
  end.

(** The longest run of digits at the start of [s]. *)
Fixpoint take_digits (s : string) : string :=
  match s with
  | EmptyString => EmptyString
  | String c r => if Str.is_digit c then String c (take_digits r) else EmptyString
  end.

Definition skip_mark (s : string) : string :=
  match s with
  | String c r => if Ascii.eqb c ":"%char || Ascii.eqb c "-"%char then r else s
  | EmptyString => s
  end.

(** The group of [w1\s+w2\s*[:\-]?\s*(\d+)] matched at the start of [s].
    The character classes that follow one another are disjoint, so the
    greedy choice is the only one that can succeed. *)
Definition match_here (w1 w2 s : string) : option string :=
  match match_ci w1 s with
  | None => None
  | Some r1 =>
      let r2 := Str.lstrip r1 in
      if String.length r2 =? String.length r1 then None
      else
        match match_ci w2 r2 with
        | None => None
        | Some r3 =>
            let d := take_digits (Str.lstrip (skip_mark (Str.lstrip r3))) in
            if Str.is_empty d then None else Some d
        end
  end.

(** [re.search]: the match at the leftmost position that has one. *)
Fixpoint search (w1 w2 s : string) : option string :=
  match match_here w1 w2 s with
  | Some d => Some d
  | None =>
      match s with
      | EmptyString => None
      | String _ r => search w1 w2 r
      end
  end.

End Regex.

Definition extract_gross_total_qty (full_content : string) : float :=
  if Str.is_empty full_content then Float.zero
  else
    match Regex.search "Gross" "Total" full_content with
    | Some d => Float.decimal (Str.digits_value 0 d) 0
    | None =>
        match Regex.search "Total" "Qty" full_content with
        | Some d => Float.decimal (Str.digits_value 0 d) 0
        | None => Float.zero
        end
    end.

(* ================================================================= *)
(** ** [load_and_clean_excel] *)

(** A cell as the program sees it: missing ([pd.isna] holds), or a value
    known by the text [str] gives for it. *)
Inductive cell : Type :=
| NaN
| Val (text : string).

Definition isna (c : cell) : bool :=
  match c with
  | NaN => true
  | Val _ => false
  end.

(** [str(value)], also what [astype(str)] puts in place of the cell. *)
Definition cell_str (c : cell) : string :=
  match c with
  | NaN => "nan"
  | Val t => t
  end.

(** The uploaded sheet: a grid [ncols] wide. *)
Record Sheet : Type := { ncols : nat; sheet_rows : list (list cell) }.

(** A frame read from the sheet.  Column names play no part: the program
    addresses columns by position. *)
Record DataFrame : Type := { width : nat; rows : list (list cell) }.

(** A row at the width of the grid, short rows filled with missing cells. *)
Definition pad (w : nat) (r : list cell) : list cell :=
  map (fun j => nth j r NaN) (seq 0 w).

(** [pd.read_excel(file, header=h)]: with [header=None] every row is
    data; with [header=i] row [i] names the columns and the rows after it
    are the data. *)
Definition read_excel (file : Sheet) (header : option nat) : DataFrame :=
  let all := map (pad (ncols file)) (sheet_rows file) in
  match header with
  | None => {| width := ncols file; rows := all |}
  | Some i => {| width := ncols file; rows := skipn (S i) all |}
  end.

(** [r.astype(str).str.contains('SKU').any()] *)
Definition row_has_marker (r : list cell) : bool :=
  existsb (fun c => Str.contains "SKU" (cell_str c)) r.

Fixpoint first_index {A : Type} (p : A -> bool) (l : list A) : option nat :=
  match l with
  | [] => None
  | a :: l' => if p a then Some 0 else option_map S (first_index p l')
  end.

(** [raw_df[mask].index[0]]: the label of the first marked row;
    indexing the empty index raises [IndexError]. *)
Definition header_row_idx (raw_df : DataFrame) : result nat :=
  match first_index row_has_marker (rows raw_df) with
  | Some i => Ok i
  | None => Raise IndexError
  end.

(** [df.iloc[:, j]] *)
Definition iloc_col (df : DataFrame) (j : nat) : result (list cell) :=
  if j <? width df then Ok (map (fun r => nth j r NaN) (rows df))
  else Raise IndexError.

Definition clean_currency (value : cell) : result float :=
  if isna value then Ok Float.zero
  else
    let cleaned := Str.sub_non_numeric (cell_str value) in
    try_except (Str.to_float cleaned) (Ok Float.zero).

(** A row of [cleaned_items]. *)
Record ExcelRow : Type := {
  Material_Code : string;
  Qty_EXCEL : float;
  Tax_EXCEL : float;
  Total_EXCEL : float
}.

(** The four columns of [cleaned_items] side by side. *)
Fixpoint cleaned_rows (codes : list string) (qty tax total : list float) : list ExcelRow :=
  match codes, qty, tax, total with
  | c :: codes', q :: qty', t :: tax', a :: total' =>
      {| Material_Code := c; Qty_EXCEL := q; Tax_EXCEL := t; Total_EXCEL := a |}
      :: cleaned_rows codes' qty' tax' total'
  | _, _, _, _ => []
  end.

(** [.astype(str).str.replace('TR-', '', regex=False).str.strip()] *)
Definition clean_code (c : cell) : string :=
  Str.strip (Str.remove_all "TR-" (cell_str c)).

(** The body of [load_and_clean_excel] once the header row is known. *)
Definition clean_with_header (file : Sheet) (header_row_idx : nat) : result (list ExcelRow) :=
  let df := read_excel file (Some header_row_idx) in
  c0 <- iloc_col df 0 ;;
  let codes := map clean_code c0 in
  c4 <- iloc_col df 4 ;;
  qty <- apply_each clean_currency c4 ;;
  c10 <- iloc_col df 10 ;;
  tax <- apply_each clean_currency c10 ;;
  c11 <- iloc_col df 11 ;;
  total <- apply_each clean_currency c11 ;;
  Ok (filter (fun r => negb (Material_Code r =? "nan")%string)
        (cleaned_rows codes qty tax total)).

Definition load_and_clean_excel (file : Sheet) : result (list ExcelRow) :=
  let raw_df := read_excel file None in
  idx <- header_row_idx raw_df ;;
  clean_with_header file idx.

(* ================================================================= *)
(** ** [extract_pdf_data] *)

(** The [value_object] of one entry of the [Items] array. *)
Record ItemObject : Type := {
  ProductCode : option DocumentField;
  Amount : option DocumentField
}.

(** One analysed document.  [Items] is [None] when the field or its
    array is absent. *)
Record Invoice : Type := {
  Items : option (list ItemObject);
  TotalTax : option DocumentField;
  InvoiceTotal : option DocumentField
}.

(** What the document service returns: the recognised text and the
    documents found in it. *)
Record AnalyzeResult : Type := {
  full_text : string;
  documents : list Invoice
}.

(** An entry of [all_line_items], later a row of [pdf_df]. *)
Record LineItem : Type := {
  Material_Code_PDF : string;
  Total_PDF : float
}.

Record Summary : Type := {
  Gross_Total_Qty : float;
  Total_Tax_Footer : float;
  Grand_Total_Footer : float
}.

(** A [for] loop whose body updates the state [S] or raises. *)
Fixpoint for_each {S A : Type} (body : S -> A -> result S) (l : list A) (s : S) : result S :=
  match l with
  | [] => Ok s
  | a :: l' => s' <- body s a ;; for_each body l' s'
  end.

(** [m_code not in excel_material_codes.values] is the negation of this. *)
Definition code_in (m_code : string) (excel_material_codes : list string) : bool :=
  existsb (String.eqb m_code) excel_material_codes.

(** The body of the loop over [items.value_array]; returning the list
    unchanged is [continue]. *)
Definition visit_item (excel_material_codes : list string)
  (all_line_items : list LineItem) (item : ItemObject) : result (list LineItem) :=
  match ProductCode item with
  | None => Ok all_line_items
  | Some p_code_field =>
      match content p_code_field with
      | None => Ok all_line_items
      | Some c =>
          if Str.is_empty c then Ok all_line_items
          else
            let m_code := Str.strip c in
            amt <- clean_num_strict (Amount item) ;;
            if negb (code_in m_code excel_material_codes) then Ok all_line_items
            else if Str.contains "total" (Str.lower m_code) || Float.eqb amt Float.zero
            then Ok all_line_items
            else Ok (all_line_items
                       ++ [{| Material_Code_PDF := m_code; Total_PDF := amt |}])%list
      end
  end.

(** The body of the loop over [result.documents]. *)
Definition visit_invoice (excel_material_codes : list string)
  (st : list LineItem * Summary) (invoice : Invoice) : result (list LineItem * Summary) :=
  let (all_line_items, summary) := st in
  all_line_items' <-
    match Items invoice with
    | Some (i :: arr) => for_each (visit_item excel_material_codes) (i :: arr) all_line_items
    | _ => Ok all_line_items
    end ;;
  tax <- clean_num_strict (TotalTax invoice) ;;
  total <- clean_num_strict (InvoiceTotal invoice) ;;
  Ok (all_line_items',
      {| Gross_Total_Qty := Gross_Total_Qty summary;
         Total_Tax_Footer := tax;
         Grand_Total_Footer := total |}).

(** Two amounts [drop_duplicates] takes for the same value. *)
Definition same_value (x y : float) : bool :=
  (Float.is_nan x && Float.is_nan y) || Float.eqb x y.

Definition same_item (a b : LineItem) : bool :=
  (Material_Code_PDF a =? Material_Code_PDF b)%string
  && same_value (Total_PDF a) (Total_PDF b).

(** [drop_duplicates()]: a row equal to one already [seen] goes, the
    first of equal rows stays. *)
Fixpoint drop_duplicates_from (seen l : list LineItem) : list LineItem :=
  match l with
  | [] => []
  | x :: l' =>
      if existsb (same_item x) seen then drop_duplicates_from seen l'
      else x :: drop_duplicates_from (x :: seen) l'
  end.

Definition drop_duplicates (l : list LineItem) : list LineItem :=
  drop_duplicates_from [] l.

(** [extract_pdf_data], from the answer of the document service on.  An
    empty list of rows stands for the frame [pd.DataFrame([])] builds,
    which has no columns either. *)
Definition extract_pdf_data (analysis : AnalyzeResult) (excel_material_codes : list string)
  : result (list LineItem * Summary) :=
  let summary :=
    {| Gross_Total_Qty := Float.zero;
       Total_Tax_Footer := Float.zero;
       Grand_Total_Footer := Float.zero |} in
  st <- for_each (visit_invoice excel_material_codes) (documents analysis) ([], summary) ;;
  let (all_line_items, summary') := st in
  Ok (drop_duplicates all_line_items,
      {| Gross_Total_Qty := extract_gross_total_qty (full_text analysis);
         Total_Tax_Footer := Total_Tax_Footer summary';
         Grand_Total_Footer := Grand_Total_Footer summary' |}).

(** What the loop requires of an item before it appends it. *)
Definition passes_tests (codes : list string) (it : LineItem) : Prop :=
  In (Material_Code_PDF it) codes
  /\ Str.contains "total" (Str.lower (Material_Code_PDF it)) = false
  /\ Float.eqb (Total_PDF it) Float.zero = false.

(* ================================================================= *)
(** ** Merge and compare *)

Inductive status : Type :=
| Match
| Mismatch.

(** A row of [comp_df]. *)
Record CompRow : Type := {
  Code : string;
  PDF : float;
  EXCEL : float;
  Status : status
}.

(** The key goes in front of the first key that is not before it. *)
Fixpoint insert_key (k : string) (ks : list string) : list string :=
  match ks with
  | [] => [k]
  | h :: t => if String.leb k h then k :: ks else h :: insert_key k t
  end.

Definition sort_keys (l : list string) : list string := fold_right insert_key [] l.

(** The keys of an outer join: the union of the keys of both sides, each
    key once, in lexicographic order. *)
Definition join_keys (l : list string) : list string :=
  sort_keys (nodup string_dec l).

(** The rows an outer join makes for the key [k]: every pairing of a left
    row with a right row of that key, and a row with a missing side (a
    NaN) where the other frame has no row of that key. *)
Definition join_at (left : list LineItem) (right : list (string * float)) (k : string)
  : list (string * float * float) :=
  let ls := filter (fun l => (Material_Code_PDF l =? k)%string) left in
  let rs := filter (fun r => (fst r =? k)%string) right in
  match ls, rs with
  | [], _ => map (fun r => (k, Float.nan, snd r)) rs
  | _, [] => map (fun l => (k, Total_PDF l, Float.nan)) ls
  | _, _ => flat_map (fun l => map (fun r => (k, Total_PDF l, snd r)) rs) ls
  end.

(** [pd.merge(pdf_df, excel_df[['Material Code', 'Total_EXCEL']],
    on="Material Code", how="outer")].  A [pdf_df] built from no line
    item has no column to join on, and the merge raises [KeyError]. *)
Definition merge_outer (pdf_df : list LineItem) (right : list (string * float))
  : result (list (string * float * float)) :=
  match pdf_df with
  | [] => Raise KeyError
  | _ :: _ =>
      Ok (flat_map (join_at pdf_df right)
            (join_keys (map Material_Code_PDF pdf_df ++ map fst right)%list))
  end.

(** [.fillna(0)] on a number. *)
Definition fillna0 (x : float) : float :=
  if Float.is_nan x then Float.zero else x.

(** The [Status] of a row of [comp_df]. *)
Definition item_status (total_pdf total_excel tolerance : float) : status :=
  if Float.leb (Float.abs (Float.sub total_pdf total_excel)) tolerance
  then Match else Mismatch.

Definition comp_row (tolerance : float) (r : string * float * float) : CompRow :=
  let '(k, p, e) := r in
  {| Code := k;
     PDF := fillna0 p;
     EXCEL := fillna0 e;
     Status := item_status (fillna0 p) (fillna0 e) tolerance |}.

(** The two columns of [excel_df] that enter the merge. *)
Definition right_frame (excel_df : list ExcelRow) : list (string * float) :=
  map (fun r => (Material_Code r, Total_EXCEL r)) excel_df.

(** Step 3 of the run: [comp_df] with its [Status] column. *)
Definition merge_and_compare (pdf_df : list LineItem) (excel_df : list ExcelRow)
  (tolerance : float) : result (list CompRow) :=
  merged <- merge_outer pdf_df (right_frame excel_df) ;;
  Ok (map (comp_row tolerance) merged).

(* ================================================================= *)
(** ** Notions the statements use *)

(** The key of a merged row. *)
Definition key_of (x : string * float * float) : string := fst (fst x).

(** How many rows a key gets: one per pairing, or one per row of the side
    that has the key when the other side has not. *)
Definition rows_for (n_left n_right : nat) : nat :=
  match n_left, n_right with
  | 0, n => n
  | n, 0 => n
  | n, m => n * m
  end.

(** The three amounts of a row are numbers without sign. *)
Definition signed_row (x : ExcelRow) : Prop :=
  Float.signed_as false (Qty_EXCEL x)
  /\ Float.signed_as false (Tax_EXCEL x)
  /\ Float.signed_as false (Total_EXCEL x).

(* ================================================================= *)
(** ** Grand totals and accuracy *)

(** A row of [summary_results]. *)
Record SummaryRow : Type := {
  Metric : string;
  PDF_Data : float;
  Excel_Sum : float;
  Difference : float;
  Summary_Status : status
}.

Definition is_match (s : status) : bool :=
  match s with
  | Match => true
  | Mismatch => false
  end.

(** The expression shown as "Overall Accuracy", before it is formatted. *)
Definition overall_accuracy (comp_df : list CompRow) : result float :=
  ratio <- Float.int_truediv
             (Z.of_nat (List.length (filter (fun r => is_match (Status r)) comp_df)))
             (Z.of_nat (List.length comp_df)) ;;
  Ok (Float.mul ratio (Float.of_int 100)).

(** Adding a column up from the left, starting at zero. *)
Definition sum_left (l : list float) : float := fold_left Float.add l Float.zero.

Section GrandTotals.

(** [Series.sum()].  In which order pandas adds the numbers of a long
    column is its own business, so the sum is left open here;
    [sum_left] is one such sum. *)
Variable series_sum : list float -> float.

Definition summary_results (pdf_summary : Summary) (excel_df : list ExcelRow)
  (tolerance : float) : list SummaryRow :=
  let qty := series_sum (map Qty_EXCEL excel_df) in
  let tax := series_sum (map Tax_EXCEL excel_df) in
  let total := series_sum (map Total_EXCEL excel_df) in
  [ {| Metric := "Total Quantity";
       PDF_Data := Gross_Total_Qty pdf_summary;
       Excel_Sum := qty;
       Difference := Float.sub (Gross_Total_Qty pdf_summary) qty;
       Summary_Status :=
         if Float.eqb (Float.sub (Gross_Total_Qty pdf_summary) qty) Float.zero
         then Match else Mismatch |};
    {| Metric := "Total Tax";
       PDF_Data := Total_Tax_Footer pdf_summary;
       Excel_Sum := tax;
       Difference := Float.sub (Total_Tax_Footer pdf_summary) tax;
       Summary_Status :=
         if Float.leb (Float.abs (Float.sub (Total_Tax_Footer pdf_summary) tax)) tolerance
         then Match else Mismatch |};
    {| Metric := "Grand Total";
       PDF_Data := Grand_Total_Footer pdf_summary;
       Excel_Sum := total;
       Difference := Float.sub (Grand_Total_Footer pdf_summary) total;
       Summary_Status :=
         if Float.leb (Float.abs (Float.sub (Grand_Total_Footer pdf_summary) total)) tolerance
         then Match else Mismatch |} ].

(** What one press of the button computes. *)
Record Report : Type := {
  comp_df : list CompRow;
  grand_totals : list SummaryRow;
  accuracy : float
}.

(** The run behind the button, from the uploaded sheet, the answer of the
    document service and the tolerance of the slider. *)
Definition start_reconciliation (excel_upload : Sheet) (analysis : AnalyzeResult)
  (tolerance : float) : result Report :=
  excel_df <- load_and_clean_excel excel_upload ;;
  let valid_codes := map Material_Code excel_df in
  extracted <- extract_pdf_data analysis valid_codes ;;
  let (pdf_df, pdf_summary) := extracted in
  rows <- merge_and_compare pdf_df excel_df tolerance ;;
  let totals := summary_results pdf_summary excel_df tolerance in
  acc <- overall_accuracy rows ;;
  Ok {| comp_df := rows; grand_totals := totals; accuracy := acc |}.

End GrandTotals.

(* ================================================================= *)
(** ** The normalizer, row by row *)

(** The float [clean_currency] returns for a cell. *)
Definition currency_value (c : cell) : float :=
  match clean_currency c with
  | Ok x => x
  | Raise _ => Float.zero
  end.

(** The record made of one data row: columns 0, 4, 10 and 11. *)
Definition record_of_row (r : list cell) : ExcelRow :=
  {| Material_Code := clean_code (nth 0 r NaN);
     Qty_EXCEL := currency_value (nth 4 r NaN);
     Tax_EXCEL := currency_value (nth 10 r NaN);
     Total_EXCEL := currency_value (nth 11 r NaN) |}.

(** Whether the text has a digit, and how many points it has. *)
Fixpoint has_digit (s : string) : bool :=
  match s with
  | EmptyString => false
  | String c r => Str.is_digit c || has_digit r
  end.

Fixpoint count_points (s : string) : nat :=
  match s with
  | EmptyString => 0
  | String c r => (if Ascii.eqb c "."%char then 1 else 0) + count_points r
  end.

(** The digits of the text, everything else left out. *)
Fixpoint digits_only (s : string) : string :=
  match s with
  | EmptyString => EmptyString
  | String c r => if Str.is_digit c then String c (digits_only r) else digits_only r
  end.

(** The number of digits after the first point of the text. *)
Fixpoint frac_digits (s : string) : nat :=
  match s with
  | EmptyString => 0
  | String c r =>
      if Ascii.eqb c "."%char then String.length (digits_only r) else frac_digits r
  end.

(** A run of blanks. *)
Fixpoint all_space (s : string) : bool :=
  match s with
  | EmptyString => true
  | String c r => Str.is_space c && all_space r
  end.

(** Whether the text starts with a digit. *)
Definition starts_with_digit (s : string) : bool :=
  match s with
  | EmptyString => false
  | String c _ => Str.is_digit c
  end.

(** The text does not start with a blank. *)
Definition no_leading_space (s : string) : Prop :=
  match s with
  | EmptyString => True
  | String c _ => Str.is_space c = false
  end.

(** The summary the loop over the documents starts from. *)
Definition summary0 : Summary :=
  {| Gross_Total_Qty := Float.zero;
     Total_Tax_Footer := Float.zero;
     Grand_Total_Footer := Float.zero |}.

(** The amount of a line item: sign bit clear and not zero. *)
Definition plain_amount (it : LineItem) : Prop :=
  Float.sign_clear (Total_PDF it) = true /\ Float.eqb (Total_PDF it) Float.zero = false.

(** The number of rows of [comp_df] with the status Match. *)
Definition match_count (comp_df : list CompRow) : nat :=
  List.length (filter (fun r => is_match (Status r)) comp_df).

(* ================================================================= *)
(** ** Sample inputs *)

(** The float nearest to 123.45, [0x1.edccccccccccdp+6]. *)
Definition float_123_45 : float := S754_finite false 8687021468732621 (-46).

(** A field that carries only recognised text. *)
Definition text_field (s : string) : option DocumentField :=
  Some {| value_number := None; value_currency := None; content := Some s |}.

(** A field that carries a structured number. *)
Definition number_field (n : float) : option DocumentField :=
  Some {| value_number := Some n; value_currency := None; content := None |}.

(** The default tolerance of the slider. *)
Definition float_10 : float := Float.of_int 10.

(** The float nearest to 0.0001, [0x1.a36e2eb1c432dp-14]. *)
Definition float_0_0001 : float := S754_finite false 7378697629483821 (-66).

(** The float nearest to 100.0001, [0x1.90001a36e2eb2p+6]. *)
Definition float_100_0001 : float := S754_finite false 7036881454640818 (-46).

(** One document item with the code ["A1"], amount 110. *)
Definition one_item_a1 : list LineItem :=
  [ {| Material_Code_PDF := "A1"; Total_PDF := Float.of_int 110 |} ].

(** Two spreadsheet lines with the code ["A1"], totals 110 and 7. *)
Definition two_lines_a1 : list ExcelRow :=
  [ {| Material_Code := "A1"; Qty_EXCEL := Float.of_int 5;
       Tax_EXCEL := Float.of_int 10; Total_EXCEL := Float.of_int 110 |};
    {| Material_Code := "A1"; Qty_EXCEL := Float.of_int 1;
       Tax_EXCEL := Float.of_int 1; Total_EXCEL := Float.of_int 7 |} ].

(** The spreadsheet line of the code ["A1"] with the total 100. *)
Definition line_a1_100 : list ExcelRow :=
  [ {| Material_Code := "A1"; Qty_EXCEL := Float.of_int 5;
       Tax_EXCEL := Float.of_int 10; Total_EXCEL := Float.of_int 100 |} ].

(** The comparison row of [one_item_a1] against [line_a1_100]. *)
Definition row_a1_110_100 : CompRow :=
  {| Code := "A1"; PDF := Float.of_int 110; EXCEL := Float.of_int 100; Status := Match |}.

(** A sheet with the header row and one line: code ["A1"], quantity 1,
    tax 0, total 5. *)
Definition sheet_a1 : Sheet :=
  {| ncols := 12;
     sheet_rows :=
       [ [Val "SKU"; Val "c1"; Val "c2"; Val "c3"; Val "Qty"; Val "c5"; Val "c6";
          Val "c7"; Val "c8"; Val "c9"; Val "Tax"; Val "Total"];
         [Val "A1"; NaN; NaN; NaN; Val "1"; NaN; NaN; NaN; NaN; NaN; Val "0"; Val "5"] ] |}.

(** A document whose only item is a row of the tax table. *)
Definition analysis_hsn : AnalyzeResult :=
  {| full_text := "Gross Total : 1";
     documents :=
       [ {| Items := Some [ {| ProductCode := text_field "HSN9999";
                               Amount := text_field "5.00" |} ];
            TotalTax := text_field "0";
            InvoiceTotal := text_field "5.00" |} ] |}.

(** The sheet of [sheet_a1] with a second line: code ["B2"], total 7. *)
Definition sheet_a1_b2 : Sheet :=
  {| ncols := 12;
     sheet_rows :=
       sheet_rows sheet_a1
       ++ [ [Val "B2"; NaN; NaN; NaN; Val "2"; NaN; NaN; NaN; NaN; NaN; Val "0"; Val "7"] ] |}.

(** The two lines of [sheet_a1_b2] as the normalizer returns them. *)
Definition line_a1 : ExcelRow :=
  {| Material_Code := "A1"; Qty_EXCEL := Float.of_int 1;
     Tax_EXCEL := Float.zero; Total_EXCEL := Float.of_int 5 |}.

Definition line_b2 : ExcelRow :=
  {| Material_Code := "B2"; Qty_EXCEL := Float.of_int 2;
     Tax_EXCEL := Float.zero; Total_EXCEL := Float.of_int 7 |}.

(** A document item with the code ["B2"], amount 7. *)
Definition item_b2 : LineItem :=
  {| Material_Code_PDF := "B2"; Total_PDF := Float.of_int 7 |}.

(** A sheet with the header row and no line under it. *)
Definition sheet_header_only : Sheet :=
  {| ncols := 12; sheet_rows := firstn 1 (sheet_rows sheet_a1) |}.

(** The sheet of the first scenario: a title row, the header row and
    the line ["TR-A1"] with quantity 5, tax 10 and total 110. *)
Definition sheet_scenario : Sheet :=
  {| ncols := 12;
     sheet_rows :=
       [ [Val "Tax Invoice"];
         [Val "SKU Code"; Val "c1"; Val "c2"; Val "c3"; Val "Qty"; Val "c5"; Val "c6";
          Val "c7"; Val "c8"; Val "c9"; Val "Tax"; Val "Total"];
         [Val "TR-A1 "; NaN; NaN; NaN; Val "5"; NaN; NaN; NaN; NaN; NaN;
          Val "10.0"; Val "110.0"] ] |}.

(** A document with the item ["A1"] at the given amount, a row of the tax
    table, and the footer figures 5, 10 and 110. *)
Definition analysis_scenario (amount_a1 : string) : AnalyzeResult :=
  {| full_text := "Item A1 ... Gross Total : 5 Grand Total 110.00";
     documents :=
       [ {| Items := Some [ {| ProductCode := text_field " A1";
                               Amount := text_field amount_a1 |};
                            {| ProductCode := text_field "HSN9999";
                               Amount := text_field "110.00" |} ];
            TotalTax := text_field "10.00";
            InvoiceTotal := text_field "110.00" |} ] |}.

(* ================================================================= *)
(** * Lemmas and theorems *)

(* ================================================================= *)
(** ** Floats: signs and comparisons *)

Module FloatFacts.
Import Float.

Lemma abs_sign_clear (x : float) : sign_clear (abs x) = true.
Proof. destruct x; reflexivity. Qed.

Lemma abs_nan (x : float) : is_nan (abs x) = is_nan x.
Proof. destruct x; reflexivity. Qed.

(** A number that is no NaN and has a clear sign bit is at least zero. *)
Lemma sign_clear_nonneg (x : float) :
  sign_clear x = true -> is_nan x = false -> nonneg x = true.
Proof.
  destruct x as [s | s | | s m e]; simpl; try discriminate;
    destruct s; simpl; intros; (discriminate || reflexivity).
Qed.

Lemma nonneg_not_nan (x : float) : nonneg x = true -> is_nan x = false.
Proof. destruct x; simpl; intros; (discriminate || reflexivity). Qed.

(** A number at least zero is not below zero. *)
Lemma nonneg_not_below (x : float) : nonneg x = true -> ltb x zero = false.
Proof.
  destruct x as [s | s | | s m e]; unfold nonneg, leb, ltb, SFleb, SFltb; simpl;
    try destruct s; simpl; intros; (discriminate || reflexivity).
Qed.

(** [abs(0 - x)] gives [x] back when [x] has no sign. *)
Lemma abs_zero_sub (x : float) :
  sign_clear x = true -> is_nan x = false -> abs (sub zero x) = x.
Proof.
  destruct x as [s | s | | s m e]; simpl; try discriminate;
    destruct s; simpl; intros; (discriminate || reflexivity).
Qed.

(** Every number other than a NaN compares equal to itself. *)
Lemma compare_refl (x : float) : is_nan x = false -> SFcompare x x = Some Eq.
Proof.
  destruct x as [s | s | | s m e]; simpl; intros H; try discriminate.
  - reflexivity.
  - destruct s; reflexivity.
  - destruct s; rewrite Z.compare_refl, Pos.compare_cont_refl; reflexivity.
Qed.

Lemma leb_refl (x : float) : is_nan x = false -> leb x x = true.
Proof. intros H. unfold leb, SFleb. rewrite (compare_refl x H). reflexivity. Qed.

(** Swapping the operands of a comparison swaps its outcome. *)
Lemma compare_antisym (x y : float) :
  SFcompare y x = option_map CompOpp (SFcompare x y).
Proof.
  destruct x as [s | s | | s m e], y as [s' | s' | | s' m' e']; simpl;
    try reflexivity; try (destruct s; reflexivity); try (destruct s'; reflexivity);
    try (destruct s, s'; reflexivity).
  destruct s, s'; simpl; try reflexivity;
    rewrite (Z.compare_antisym e e'); destruct (e ?= e')%Z eqn:E; simpl;
    try reflexivity;
    rewrite (Pos.compare_cont_antisym m m' Eq); simpl;
    try rewrite CompOpp_involutive; reflexivity.
Qed.

(** [a < b] rules out [b <= a]. *)
Lemma ltb_not_leb (a b : float) : ltb a b = true -> leb b a = false.
Proof.
  unfold ltb, leb, SFltb, SFleb. rewrite (compare_antisym a b).
  destruct (SFcompare a b) as [[ | | ] | ]; simpl; intros; (discriminate || reflexivity).
Qed.

(** Below a non-negative mantissa no shift makes a negative one. *)
Lemma shr_1_nonneg (mrs : shr_record) :
  (0 <= shr_m mrs)%Z -> (0 <= shr_m (shr_1 mrs))%Z.
Proof.
  destruct mrs as [m r s]. simpl.
  destruct m as [ | p | p ]; [ | destruct p | ]; simpl; lia.
Qed.

Lemma iter_shr_1_nonneg (p : positive) :
  forall mrs, (0 <= shr_m mrs)%Z -> (0 <= shr_m (iter_pos shr_1 p mrs))%Z.
Proof.
  induction p as [p IH | p IH | ]; simpl; intros mrs H.
  - apply IH, IH, shr_1_nonneg, H.
  - apply IH, IH, H.
  - apply shr_1_nonneg, H.
Qed.

Lemma shr_fexp_nonneg (m e : Z) (l : location) :
  (0 <= m)%Z -> (0 <= shr_m (fst (shr_fexp prec emax m e l)))%Z.
Proof.
  intros H. unfold shr_fexp, shr.
  assert (H0 : (0 <= shr_m (shr_record_of_loc m l))%Z)
    by (destruct l as [ | [ | | ] ]; exact H).
  destruct (fexp prec emax (Zdigits2 m + e) - e)%Z; simpl; try exact H0.
  apply iter_shr_1_nonneg, H0.
Qed.

Lemma round_nearest_even_nonneg (m : Z) (l : location) :
  (0 <= m)%Z -> (0 <= round_nearest_even m l)%Z.
Proof.
  intros H. destruct l as [ | [ | | ] ]; simpl; try exact H.
  - destruct (Z.even m); lia.
  - lia.
Qed.

Lemma binary_round_aux_signed (s : bool) (m e : Z) (l : location) :
  (0 <= m)%Z -> Float.signed_as s (binary_round_aux prec emax s m e l).
Proof.
  intros H. unfold binary_round_aux.
  pose proof (shr_fexp_nonneg m e l H) as H1.
  destruct (shr_fexp prec emax m e l) as [mrs' e']. simpl in H1.
  pose proof (round_nearest_even_nonneg _ (loc_of_shr_record mrs') H1) as H2.
  pose proof (shr_fexp_nonneg _ e' loc_Exact H2) as H3.
  destruct (shr_fexp prec emax _ e' loc_Exact) as [mrs'' e'']. simpl in H3.
  destruct (shr_m mrs'') as [ | p | p ].
  - reflexivity.
  - destruct (e'' <=? emax - prec)%Z; reflexivity.
  - lia.
Qed.

Lemma div_core_nonneg (m1 m2 : positive) (e1 e2 : Z) :
  (0 <= fst (fst (SFdiv_core_binary prec emax (Zpos m1) e1 (Zpos m2) e2)))%Z.
Proof.
  unfold SFdiv_core_binary.
  set (s := (e1 - e2 - _)%Z).
  set (m' := match s with Z0 => Zpos m1 | Zpos _ => Z.shiftl (Zpos m1) s | Zneg _ => 0%Z end).
  assert (Hm : (0 <= m')%Z).
  { unfold m'. destruct s; try lia. apply Z.shiftl_nonneg. lia. }
  pose proof (Z.div_pos m' (Zpos m2) Hm ltac:(lia)) as Hq.
  unfold Z.div in Hq.
  destruct (Z.div_eucl m' (Zpos m2)) as [q r]. exact Hq.
Qed.

(** The quotient of two non-negative integers is a number with a clear
    sign bit, never a NaN, when the divisor is not zero. *)
Lemma div_exact_signed (a b : Z) :
  (0 <= a)%Z -> (0 < b)%Z -> Float.signed_as false (div (exact_int a) (exact_int b)).
Proof.
  intros Ha Hb. destruct b as [ | q | q ]; try lia.
  destruct a as [ | p | p ]; try lia.
  - reflexivity.
  - unfold div, exact_int, SFdiv.
    pose proof (div_core_nonneg p q 0 0) as H.
    destruct (SFdiv_core_binary prec emax (Zpos p) 0 (Zpos q) 0) as [[mz ez] lz].
    simpl in H. apply (binary_round_aux_signed (xorb false false)), H.
Qed.

Lemma signed_as_false (x : float) :
  Float.signed_as false x -> sign_clear x = true /\ is_nan x = false.
Proof.
  destruct x as [s | s | | s m e]; simpl; intros H; try contradiction;
    subst; split; reflexivity.
Qed.

Lemma decimal_signed (n : Z) (k : nat) :
  (0 <= n)%Z -> Float.signed_as false (decimal n k).
Proof.
  intros H. apply div_exact_signed; [ exact H | ].
  apply Z.pow_pos_nonneg; lia.
Qed.

End FloatFacts.

(* ================================================================= *)
(** ** Numeric cleaning *)

Module CleanFacts.
Import FloatFacts.

Lemma is_digit_value (c : ascii) :
  Str.is_digit c = true -> (0 <= Z.of_nat (Str.code c) - 48)%Z.
Proof.
  unfold Str.is_digit. intros H.
  apply andb_true_iff in H as [H _]. apply Nat.leb_le in H. lia.
Qed.

Lemma digits_value_nonneg (s : string) :
  forall acc, Str.all_digits s = true -> (0 <= acc)%Z -> (0 <= Str.digits_value acc s)%Z.
Proof.
  induction s as [ | c r IH]; intros acc Hd Hacc.
  - exact Hacc.
  - cbn [Str.all_digits] in Hd. apply andb_true_iff in Hd as [Hc Hr].
    cbn [Str.digits_value].
    apply IH; [ exact Hr | ]. pose proof (is_digit_value c Hc). lia.
Qed.

Lemma all_digits_app (a b : string) :
  Str.all_digits a = true -> Str.all_digits b = true -> Str.all_digits (a ++ b) = true.
Proof.
  induction a as [ | c r IH]; simpl; intros Ha Hb.
  - exact Hb.
  - apply andb_true_iff in Ha as [Hc Hr]. rewrite Hc. simpl. apply IH; assumption.
Qed.

(** Cleaning leaves digits and points only, the texts [Str.to_float]
    is written for. *)
Lemma sub_non_numeric_text (s : string) :
  Str.numeric_text (Str.sub_non_numeric s) = true.
Proof.
  induction s as [ | c r IH]; simpl.
  - reflexivity.
  - destruct (Str.is_digit c || Ascii.eqb c ".") eqn:E; simpl.
    + rewrite E. exact IH.
    + exact IH.
Qed.

(** Whatever [float] parses out of cleaned text has a clear sign bit and
    is no NaN. *)
Lemma to_float_signed (s : string) (x : float) :
  Str.to_float s = Ok x -> Float.signed_as false x.
Proof.
  unfold Str.to_float. destruct (Str.split_point s) as [ip [fp | ]].
  - destruct (Str.all_digits ip) eqn:Hi; simpl; try discriminate.
    destruct (Str.all_digits fp) eqn:Hf; simpl; try discriminate.
    destruct (negb (Str.is_empty ip && Str.is_empty fp)); try discriminate.
    intros H. injection H as <-.
    apply decimal_signed, digits_value_nonneg; [ apply all_digits_app; assumption | lia ].
  - destruct (Str.all_digits ip) eqn:Hi; simpl; try discriminate.
    destruct (negb (Str.is_empty ip)); try discriminate.
    intros H. injection H as <-.
    apply decimal_signed, digits_value_nonneg; [ assumption | lia ].
Qed.

(** [float] of the empty text raises. *)
Lemma to_float_empty : Str.to_float "" = Raise ValueError.
Proof. reflexivity. Qed.

(** The parse guarded by a bare [except]: always a value, never signed. *)
Lemma guarded_parse (s : string) :
  exists x, try_except (Str.to_float s) (Ok Float.zero) = Ok x /\ Float.signed_as false x.
Proof.
  destruct (Str.to_float s) as [x | e] eqn:E; simpl.
  - exists x. split; [ reflexivity | exact (to_float_signed s x E) ].
  - exists Float.zero. split; reflexivity.
Qed.

Lemma clean_currency_signed (value : cell) :
  exists x, clean_currency value = Ok x /\ Float.signed_as false x.
Proof.
  unfold clean_currency. destruct value as [ | t]; simpl.
  - exists Float.zero. split; reflexivity.
  - apply guarded_parse.
Qed.

Lemma clean_num_strict_structured (field : option DocumentField) (n : float) :
  structured_value field = Some n -> clean_num_strict field = Ok (Float.abs n).
Proof.
  destruct field as [f | ]; simpl; try discriminate.
  destruct (value_number f) as [m | ]; simpl.
  - intros H. injection H as <-. reflexivity.
  - destruct (value_currency f) as [cur | ]; simpl; try discriminate.
    intros H. injection H as <-. reflexivity.
Qed.

Lemma clean_num_strict_text (field : option DocumentField) :
  structured_value field = None ->
  exists x, clean_num_strict field = Ok x /\ Float.signed_as false x.
Proof.
  destruct field as [f | ]; simpl.
  - destruct (value_number f) as [m | ]; simpl; try discriminate.
    destruct (value_currency f) as [cur | ]; simpl; try discriminate.
    intros _.
    destruct (Str.is_empty _).
    + exists Float.zero. split; reflexivity.
    + apply guarded_parse.
  - intros _. exists Float.zero. split; reflexivity.
Qed.

(** [clean_num_strict] returns on every field, and what it returns has a
    clear sign bit. *)
Lemma clean_num_strict_returns (field : option DocumentField) :
  exists x, clean_num_strict field = Ok x /\ Float.sign_clear x = true.
Proof.
  destruct (structured_value field) as [n | ] eqn:E.
  - exists (Float.abs n). split.
    + apply clean_num_strict_structured, E.
    + apply abs_sign_clear.
  - destruct (clean_num_strict_text field E) as [x [H1 H2]].
    exists x. split; [ exact H1 | apply signed_as_false, H2 ].
Qed.

End CleanFacts.

(** C7.  Both numeric coercions discard the sign.  [clean_currency]
    returns, on every cell, a float [x] with [x >= 0].  [clean_num_strict]
    returns, on every field, a float whose sign bit is clear and which is
    never below zero; it is [>= 0] unless the structured number of the
    field is itself a NaN, the one case in which the result is a NaN.  The
    texts ["-123.45"] and ["123.45"] both give 123.45, and so does the
    structured number -123.45. *)
Theorem coercions_discard_sign :
  (forall value : cell,
      exists x, clean_currency value = Ok x /\ Float.nonneg x = true)
  /\ (forall field : option DocumentField,
         exists x, clean_num_strict field = Ok x
                   /\ Float.sign_clear x = true
                   /\ Float.ltb x Float.zero = false
                   /\ (structured_value field <> Some Float.nan
                       -> Float.nonneg x = true))
  /\ clean_currency (Val "-123.45") = Ok float_123_45
  /\ clean_currency (Val "123.45") = Ok float_123_45
  /\ clean_num_strict (text_field "-123.45") = Ok float_123_45
  /\ clean_num_strict (text_field "123.45") = Ok float_123_45
  /\ clean_num_strict (number_field (SFopp float_123_45)) = Ok float_123_45.
Proof.
  split; [ | split; [ | repeat split; reflexivity ] ].
  - intros value.
    destruct (CleanFacts.clean_currency_signed value) as [x [H1 H2]].
    exists x. split; [ exact H1 | ].
    apply FloatFacts.signed_as_false in H2 as [H2 H3].
    apply FloatFacts.sign_clear_nonneg; assumption.
  - intros field.
    destruct (structured_value field) as [n | ] eqn:E.
    + exists (Float.abs n).
      split; [ apply CleanFacts.clean_num_strict_structured, E | ].
      split; [ apply FloatFacts.abs_sign_clear | ].
      split.
      * destruct n as [s | s | | s m e]; reflexivity.
      * intros Hn. apply FloatFacts.sign_clear_nonneg.
        -- apply FloatFacts.abs_sign_clear.
        -- rewrite FloatFacts.abs_nan.
           destruct n; try reflexivity. exfalso. apply Hn. reflexivity.
    + destruct (CleanFacts.clean_num_strict_text field E) as [x [H1 H2]].
      exists x. split; [ exact H1 | ].
      apply FloatFacts.signed_as_false in H2 as [H2 H3].
      pose proof (FloatFacts.sign_clear_nonneg x H2 H3) as H4.
      split; [ exact H2 | ].
      split; [ apply FloatFacts.nonneg_not_below, H4 | intros _; exact H4 ].
Qed.

(** The sign of a structured number goes, whatever it is. *)
Lemma coercions_discard_sign_witness :
  exists x, clean_num_strict (number_field (SFopp float_123_45)) = Ok x
            /\ Float.nonneg x = true.
Proof.
  destruct (proj1 (proj2 coercions_discard_sign)
              (number_field (SFopp float_123_45))) as [x [H1 [_ [_ H2]]]].
  exists x. split; [ exact H1 | ].
  apply H2. simpl. discriminate.
Defined.

(** C8.  A numeric field that cannot be read degrades to [0.0], and no
    coercion ever raises.  For [clean_currency]: a missing cell gives
    [0.0]; so does a cell whose text is empty once everything but digits
    and points is removed, and a cell whose cleaned text [float] rejects.
    For [clean_num_strict]: an absent field gives [0.0]; so does a field
    without structured number whose cleaned text is empty or is rejected
    by [float].  Both functions return a float on every input. *)
Theorem unreadable_number_is_zero :
  clean_currency NaN = Ok Float.zero
  /\ (forall t : string,
         Str.sub_non_numeric t = "" -> clean_currency (Val t) = Ok Float.zero)
  /\ (forall (t : string) (e : exn),
         Str.to_float (Str.sub_non_numeric t) = Raise e ->
         clean_currency (Val t) = Ok Float.zero)
  /\ (forall value : cell, exists x, clean_currency value = Ok x)
  /\ clean_num_strict None = Ok Float.zero
  /\ (forall f : DocumentField,
         structured_value (Some f) = None ->
         Str.sub_non_numeric (str_of_content (content f)) = "" ->
         clean_num_strict (Some f) = Ok Float.zero)
  /\ (forall (f : DocumentField) (e : exn),
         structured_value (Some f) = None ->
         Str.to_float (Str.sub_non_numeric (str_of_content (content f))) = Raise e ->
         clean_num_strict (Some f) = Ok Float.zero)
  /\ (forall field : option DocumentField, exists x, clean_num_strict field = Ok x).
Proof.
  assert (Hs : forall f : DocumentField,
             structured_value (Some f) = None ->
             value_number f = None /\ value_currency f = None).
  { intros f. simpl. destruct (value_number f); try discriminate.
    destruct (value_currency f); try discriminate. split; reflexivity. }
  repeat split.
  - intros t H. unfold clean_currency. simpl. rewrite H. reflexivity.
  - intros t e H. unfold clean_currency. simpl. rewrite H. reflexivity.
  - intros value. destruct (CleanFacts.clean_currency_signed value) as [x [H _]].
    exists x. exact H.
  - intros f H E. destruct (Hs f H) as [H1 H2].
    unfold clean_num_strict. rewrite H1, H2, E. reflexivity.
  - intros f e H E. destruct (Hs f H) as [H1 H2].
    unfold clean_num_strict. rewrite H1, H2, E.
    destruct (Str.is_empty _); reflexivity.
  - intros field. destruct (CleanFacts.clean_num_strict_returns field) as [x [H _]].
    exists x. exact H.
Qed.

(** An amount written with two points is rejected by [float] and reads
    as zero, like a cell without any digit and a field whose text is all
    letters or has two points. *)
Lemma unreadable_number_is_zero_witness :
  clean_currency (Val "Rs. 1,200.50") = Ok Float.zero
  /\ clean_currency (Val "n/a") = Ok Float.zero
  /\ clean_num_strict (text_field "free") = Ok Float.zero
  /\ clean_num_strict (text_field "1.2.3") = Ok Float.zero.
Proof.
  destruct unreadable_number_is_zero as [_ [H2 [H3 [_ [_ [H6 H7]]]]]].
  pose proof (conj (H3 "Rs. 1,200.50" ValueError eq_refl)
             (conj (H2 "n/a" eq_refl)
             (conj (H6 {| value_number := None; value_currency := None;
                          content := Some "free" |} eq_refl eq_refl)
                   (proj1 H7 {| value_number := None; value_currency := None;
                                content := Some "1.2.3" |} ValueError eq_refl eq_refl))))
    as H.
  exact H.
Defined.

(* ================================================================= *)
(** ** The header row of the spreadsheet *)

Module HeaderFacts.

Section FirstIndex.
Context {A : Type} (p : A -> bool).

Lemma first_index_none (l : list A) :
  (forall a, In a l -> p a = false) -> first_index p l = None.
Proof.
  induction l as [ | a l IH]; simpl; intros H.
  - reflexivity.
  - rewrite (H a (or_introl eq_refl)). rewrite IH; [ reflexivity | ].
    intros b Hb. apply H. right. exact Hb.
Qed.

Lemma first_index_exists (l : list A) :
  (exists a, In a l /\ p a = true) -> exists i, first_index p l = Some i.
Proof.
  induction l as [ | a l IH]; simpl; intros [b [Hb Hp]].
  - contradiction.
  - destruct (p a) eqn:E; [ exists 0; reflexivity | ].
    destruct Hb as [-> | Hb]; [ congruence | ].
    destruct (IH (ex_intro _ b (conj Hb Hp))) as [i Hi].
    exists (S i). rewrite Hi. reflexivity.
Qed.

(** The index found holds a marked element and none before it is marked. *)
Lemma first_index_some (l : list A) :
  forall i, first_index p l = Some i ->
    (exists a, nth_error l i = Some a /\ p a = true)
    /\ (forall j b, j < i -> nth_error l j = Some b -> p b = false).
Proof.
  induction l as [ | a l IH]; simpl; intros i H.
  - discriminate.
  - destruct (p a) eqn:E.
    + injection H as <-. split.
      * exists a. split; [ reflexivity | exact E ].
      * intros j b Hj. lia.
    + destruct (first_index p l) as [k | ]; simpl in H; try discriminate.
      injection H as <-. destruct (IH k eq_refl) as [H1 H2]. split.
      * exact H1.
      * intros [ | j] b Hj Hb; simpl in Hb.
        -- injection Hb as <-. exact E.
        -- apply (H2 j b); [ lia | exact Hb ].
Qed.

End FirstIndex.

Lemma row_has_marker_false (r : list cell) :
  (forall c, In c r -> Str.contains "SKU" (cell_str c) = false) ->
  row_has_marker r = false.
Proof.
  intros H. unfold row_has_marker.
  destruct (existsb _ r) eqn:E; [ | reflexivity ].
  apply existsb_exists in E as [c [Hc Hs]]. rewrite (H c Hc) in Hs. discriminate.
Qed.

Lemma row_has_marker_true (r : list cell) (c : cell) :
  In c r -> Str.contains "SKU" (cell_str c) = true -> row_has_marker r = true.
Proof.
  intros Hc Hs. unfold row_has_marker. apply existsb_exists.
  exists c. split; assumption.
Qed.

End HeaderFacts.

(** The body of the normalizer, column by column and row by row. *)

Module NormalizerFacts.

Lemma apply_each_values (l : list cell) :
  apply_each clean_currency l = Ok (map currency_value l).
Proof.
  induction l as [ | c l IH]; simpl.
  - reflexivity.
  - unfold currency_value at 1.
    destruct (CleanFacts.clean_currency_signed c) as [x [Hx _]].
    rewrite Hx, IH. reflexivity.
Qed.

(** The four columns side by side are the rows one by one. *)
Lemma cleaned_rows_by_row (data : list (list cell)) :
  cleaned_rows (map clean_code (map (fun r => nth 0 r NaN) data))
    (map currency_value (map (fun r => nth 4 r NaN) data))
    (map currency_value (map (fun r => nth 10 r NaN) data))
    (map currency_value (map (fun r => nth 11 r NaN) data))
  = map record_of_row data.
Proof.
  induction data as [ | r data IH]; simpl.
  - reflexivity.
  - rewrite IH. reflexivity.
Qed.

Lemma width_read_excel (file : Sheet) (h : option nat) :
  width (read_excel file h) = ncols file.
Proof. destruct h; reflexivity. Qed.

(** With twelve columns or more, the body of the normalizer returns the
    records of the data rows whose code is not ["nan"]. *)
Lemma clean_with_header_rows (file : Sheet) (i : nat) :
  12 <= ncols file ->
  clean_with_header file i
  = Ok (filter (fun x => negb (Material_Code x =? "nan")%string)
          (map record_of_row (rows (read_excel file (Some i))))).
Proof.
  intros H. unfold clean_with_header, iloc_col.
  rewrite width_read_excel.
  assert (H0 : (0 <? ncols file) = true) by (apply Nat.ltb_lt; lia).
  assert (H4 : (4 <? ncols file) = true) by (apply Nat.ltb_lt; lia).
  assert (H10 : (10 <? ncols file) = true) by (apply Nat.ltb_lt; lia).
  assert (H11 : (11 <? ncols file) = true) by (apply Nat.ltb_lt; lia).
  rewrite H0, H4, H10, H11. cbn [bind].
  rewrite !apply_each_values. cbn [bind].
  rewrite cleaned_rows_by_row. reflexivity.
Qed.

(** With fewer than twelve columns the body raises [IndexError]. *)
Lemma clean_with_header_narrow (file : Sheet) (i : nat) :
  ncols file < 12 -> clean_with_header file i = Raise IndexError.
Proof.
  intros H. unfold clean_with_header, iloc_col.
  rewrite width_read_excel.
  assert (H11 : (11 <? ncols file) = false) by (apply Nat.ltb_ge; lia).
  rewrite H11.
  destruct (0 <? ncols file); cbn [bind]; [ | reflexivity ].
  destruct (4 <? ncols file); cbn [bind]; [ | reflexivity ].
  rewrite apply_each_values. cbn [bind].
  destruct (10 <? ncols file); cbn [bind]; [ | reflexivity ].
  rewrite apply_each_values. cbn [bind]. reflexivity.
Qed.

Lemma first_index_existsb {A : Type} (p : A -> bool) (l : list A) :
  existsb p l = match first_index p l with Some _ => true | None => false end.
Proof.
  induction l as [ | a l IH]; simpl.
  - reflexivity.
  - destruct (p a); simpl; [ reflexivity | ].
    rewrite IH. destruct (first_index p l); reflexivity.
Qed.

Lemma rstrip_idempotent (s : string) : Str.rstrip (Str.rstrip s) = Str.rstrip s.
Proof.
  induction s as [ | c r IH]; simpl.
  - reflexivity.
  - destruct (Str.is_space c && Str.is_empty (Str.rstrip r)) eqn:E.
    + reflexivity.
    + simpl. rewrite IH, E. reflexivity.
Qed.

Lemma lstrip_no_leading_space (s : string) : no_leading_space (Str.lstrip s).
Proof.
  induction s as [ | c r IH]; simpl.
  - exact I.
  - destruct (Str.is_space c) eqn:E; [ exact IH | exact E ].
Qed.

Lemma lstrip_fixed (s : string) : no_leading_space s -> Str.lstrip s = s.
Proof. destruct s as [ | c r]; simpl; intros H; [ | rewrite H ]; reflexivity. Qed.

Lemma rstrip_no_leading_space (s : string) :
  no_leading_space s -> no_leading_space (Str.rstrip s).
Proof.
  destruct s as [ | c r]; simpl; intros H.
  - exact I.
  - rewrite H. simpl. exact H.
Qed.

Lemma strip_idempotent (s : string) : Str.strip (Str.strip s) = Str.strip s.
Proof.
  unfold Str.strip.
  rewrite (lstrip_fixed (Str.rstrip (Str.lstrip s))).
  - apply rstrip_idempotent.
  - apply rstrip_no_leading_space, lstrip_no_leading_space.
Qed.

End NormalizerFacts.

(** C9.  When no cell of any row of the sheet contains ["SKU"], the
    normalizer raises (the [IndexError] of indexing an empty index) and
    so returns no rows at all.  When some cell does, the first row with
    such a cell is the one used as the header: no earlier row has one,
    and what the normalizer returns is read from the rows after that row
    and from no other.  With twelve columns or more it is the records of
    these rows, in the order of the sheet, those whose code reads ["nan"]
    left out; with fewer columns it is [IndexError]. *)
Theorem header_is_first_marked_row (file : Sheet) :
  let raw_rows := rows (read_excel file None) in
  ((forall r c, In r raw_rows -> In c r -> Str.contains "SKU" (cell_str c) = false) ->
   load_and_clean_excel file = Raise IndexError)
  /\ ((exists r c, In r raw_rows /\ In c r /\ Str.contains "SKU" (cell_str c) = true) ->
      exists i r,
        nth_error raw_rows i = Some r
        /\ row_has_marker r = true
        /\ (forall j r', j < i -> nth_error raw_rows j = Some r' -> row_has_marker r' = false)
        /\ rows (read_excel file (Some i)) = skipn (S i) raw_rows
        /\ load_and_clean_excel file = clean_with_header file i
        /\ load_and_clean_excel file
           = if 12 <=? ncols file
             then Ok (filter (fun x => negb (Material_Code x =? "nan")%string)
                        (map record_of_row (skipn (S i) raw_rows)))
             else Raise IndexError).
Proof.
  intros raw_rows. split.
  - intros H. unfold load_and_clean_excel, header_row_idx.
    fold raw_rows. rewrite HeaderFacts.first_index_none; [ reflexivity | ].
    intros r Hr. apply HeaderFacts.row_has_marker_false.
    intros c Hc. exact (H r c Hr Hc).
  - intros [r [c [Hr [Hc Hs]]]].
    destruct (HeaderFacts.first_index_exists row_has_marker raw_rows) as [i Hi].
    { exists r. split; [ exact Hr | exact (HeaderFacts.row_has_marker_true r c Hc Hs) ]. }
    destruct (HeaderFacts.first_index_some row_has_marker raw_rows i Hi)
      as [[r0 [Hn Hm]] Hbefore].
    assert (Hload : load_and_clean_excel file = clean_with_header file i).
    { unfold load_and_clean_excel, header_row_idx. fold raw_rows. rewrite Hi. reflexivity. }
    exists i, r0.
    split; [ exact Hn | ]. split; [ exact Hm | ]. split; [ exact Hbefore | ].
    split; [ reflexivity | ]. split; [ exact Hload | ].
    rewrite Hload. destruct (12 <=? ncols file) eqn:E.
    + apply Nat.leb_le in E.
      exact (NormalizerFacts.clean_with_header_rows file i E).
    + apply Nat.leb_gt in E.
      exact (NormalizerFacts.clean_with_header_narrow file i E).
Qed.

(** A sheet whose only row is a title has no header.  In [sheet_scenario]
    the header is found under the title row, and the one record returned
    is that of the line below the header: neither the title row nor the
    header row gives a record. *)
Lemma header_is_first_marked_row_witness :
  load_and_clean_excel {| ncols := 2; sheet_rows := [[Val "Invoice"; NaN]] |}
  = Raise IndexError
  /\ exists i r,
       nth_error (rows (read_excel sheet_scenario None)) i = Some r
       /\ row_has_marker r = true
       /\ (forall j r', j < i ->
              nth_error (rows (read_excel sheet_scenario None)) j = Some r' ->
              row_has_marker r' = false)
       /\ rows (read_excel sheet_scenario (Some i))
          = skipn (S i) (rows (read_excel sheet_scenario None))
       /\ load_and_clean_excel sheet_scenario = clean_with_header sheet_scenario i
       /\ load_and_clean_excel sheet_scenario
          = if 12 <=? ncols sheet_scenario
            then Ok (filter (fun x => negb (Material_Code x =? "nan")%string)
                       (map record_of_row
                          (skipn (S i) (rows (read_excel sheet_scenario None)))))
            else Raise IndexError.
Proof.
  split.
  - apply (proj1 (header_is_first_marked_row
                    {| ncols := 2; sheet_rows := [[Val "Invoice"; NaN]] |})).
    intros r c [<- | []] [<- | [<- | []]]; reflexivity.
  - apply (proj2 (header_is_first_marked_row sheet_scenario)).
    exists (pad 12 [Val "SKU Code"; Val "c1"; Val "c2"; Val "c3"; Val "Qty"; Val "c5";
                    Val "c6"; Val "c7"; Val "c8"; Val "c9"; Val "Tax"; Val "Total"]),
           (Val "SKU Code").
    split; [ right; left; reflexivity | ].
    split; [ left; reflexivity | reflexivity ].
Defined.

(* ================================================================= *)
(** ** The line items kept from the document *)

Module ExtractFacts.

Lemma code_in_iff (m_code : string) (codes : list string) :
  code_in m_code codes = true <-> In m_code codes.
Proof.
  unfold code_in. rewrite existsb_exists. split.
  - intros [c [Hc He]]. apply String.eqb_eq in He. subst. exact Hc.
  - intros H. exists m_code. split; [ exact H | apply String.eqb_refl ].
Qed.

(** A loop whose body always returns and keeps [Inv] returns a state
    with [Inv]. *)
Lemma for_each_invariant {S A : Type} (body : S -> A -> result S) (Inv : S -> Prop) :
  (forall s a, Inv s -> exists s', body s a = Ok s' /\ Inv s') ->
  forall l s, Inv s -> exists s', for_each body l s = Ok s' /\ Inv s'.
Proof.
  intros Hbody. induction l as [ | a l IH]; simpl; intros s Hs.
  - exists s. split; [ reflexivity | exact Hs ].
  - destruct (Hbody s a Hs) as [s1 [H1 Hs1]]. rewrite H1. simpl. apply IH, Hs1.
Qed.

Lemma visit_item_keeps (codes : list string) (acc : list LineItem) (item : ItemObject) :
  Forall (passes_tests codes) acc ->
  exists acc', visit_item codes acc item = Ok acc' /\ Forall (passes_tests codes) acc'.
Proof.
  intros Hacc. unfold visit_item.
  destruct (ProductCode item) as [p | ]; [ | exists acc; split; [ reflexivity | exact Hacc ] ].
  destruct (content p) as [c | ]; [ | exists acc; split; [ reflexivity | exact Hacc ] ].
  destruct (Str.is_empty c); [ exists acc; split; [ reflexivity | exact Hacc ] | ].
  destruct (CleanFacts.clean_num_strict_returns (Amount item)) as [amt [Ha _]].
  rewrite Ha. simpl.
  destruct (code_in (Str.strip c) codes) eqn:Hin; simpl;
    [ | exists acc; split; [ reflexivity | exact Hacc ] ].
  destruct (Str.contains "total" (Str.lower (Str.strip c))) eqn:Ht; simpl;
    [ exists acc; split; [ reflexivity | exact Hacc ] | ].
  destruct (Float.eqb amt Float.zero) eqn:Hz;
    [ exists acc; split; [ reflexivity | exact Hacc ] | ].
  eexists. split; [ reflexivity | ].
  apply Forall_app. split; [ exact Hacc | ].
  constructor; [ | constructor ].
  repeat split; simpl; try assumption. apply code_in_iff, Hin.
Qed.

Lemma visit_invoice_keeps (codes : list string) (st : list LineItem * Summary)
  (invoice : Invoice) :
  Forall (passes_tests codes) (fst st) ->
  exists st', visit_invoice codes st invoice = Ok st'
              /\ Forall (passes_tests codes) (fst st').
Proof.
  destruct st as [acc summary]. intros Hacc. unfold visit_invoice.
  assert (Htail : forall acc', Forall (passes_tests codes) acc' ->
            exists st',
              (tax <- clean_num_strict (TotalTax invoice) ;;
               total <- clean_num_strict (InvoiceTotal invoice) ;;
               Ok (acc', {| Gross_Total_Qty := Gross_Total_Qty summary;
                            Total_Tax_Footer := tax;
                            Grand_Total_Footer := total |}))
              = Ok st' /\ Forall (passes_tests codes) (fst st')).
  { intros acc' H.
    destruct (CleanFacts.clean_num_strict_returns (TotalTax invoice)) as [tax [Ht _]].
    destruct (CleanFacts.clean_num_strict_returns (InvoiceTotal invoice)) as [tot [Hi _]].
    rewrite Ht, Hi. eexists. split; [ reflexivity | exact H ]. }
  destruct (Items invoice) as [[ | i arr] | ]; cbv beta iota.
  - apply (Htail acc Hacc).
  - destruct (for_each_invariant (visit_item codes) (Forall (passes_tests codes))
                (fun s a => visit_item_keeps codes s a) (i :: arr) acc Hacc)
      as [acc' [H1 H2]].
    rewrite H1. apply (Htail acc' H2).
  - apply (Htail acc Hacc).
Qed.

(** [drop_duplicates] only removes rows. *)
Lemma drop_duplicates_from_incl (l : list LineItem) :
  forall seen x, In x (drop_duplicates_from seen l) -> In x l.
Proof.
  induction l as [ | y l IH]; simpl; intros seen x H.
  - exact H.
  - destruct (existsb (same_item y) seen).
    + right. exact (IH _ _ H).
    + destruct H as [H | H]; [ left; exact H | right; exact (IH _ _ H) ].
Qed.

(** [extract_pdf_data] returns on every answer of the service, and
    every row of the frame it returns passed the three tests of the loop. *)
Lemma extract_pdf_data_keeps (analysis : AnalyzeResult) (codes : list string) :
  exists items summary,
    extract_pdf_data analysis codes = Ok (items, summary)
    /\ Forall (passes_tests codes) items.
Proof.
  unfold extract_pdf_data.
  destruct (for_each_invariant (visit_invoice codes)
              (fun st => Forall (passes_tests codes) (fst st))
              (fun s a => visit_invoice_keeps codes s a)
              (documents analysis)
              ([], {| Gross_Total_Qty := Float.zero;
                      Total_Tax_Footer := Float.zero;
                      Grand_Total_Footer := Float.zero |})
              (Forall_nil _)) as [[all summary'] [H1 H2]].
  rewrite H1. simpl. do 2 eexists. split; [ reflexivity | ].
  apply Forall_forall. intros x Hx.
  apply drop_duplicates_from_incl in Hx.
  simpl in H2. rewrite Forall_forall in H2. apply H2, Hx.
Qed.

End ExtractFacts.

(** C2.  Every line item [extract_pdf_data] emits carries a code of the
    list of spreadsheet codes it was given, and the function returns on
    every answer of the document service.  A candidate whose code is not
    in the list leaves the list of line items as it was.  In the run the
    list given is the code column of the normalizer's rows. *)
Theorem emitted_codes_are_spreadsheet_codes :
  (forall (analysis : AnalyzeResult) (codes : list string),
      exists items summary,
        extract_pdf_data analysis codes = Ok (items, summary)
        /\ forall it, In it items -> In (Material_Code_PDF it) codes)
  /\ (forall (codes : list string) (acc : list LineItem) (item : ItemObject)
             (p : DocumentField) (c : string),
         ProductCode item = Some p -> content p = Some c ->
         ~ In (Str.strip c) codes ->
         visit_item codes acc item = Ok acc)
  /\ (forall (excel_df : list ExcelRow) (analysis : AnalyzeResult),
         exists items summary,
           extract_pdf_data analysis (map Material_Code excel_df) = Ok (items, summary)
           /\ forall it, In it items ->
                exists r, In r excel_df /\ Material_Code r = Material_Code_PDF it).
Proof.
  split; [ | split ].
  - intros analysis codes.
    destruct (ExtractFacts.extract_pdf_data_keeps analysis codes) as [items [summary [H1 H2]]].
    exists items, summary. split; [ exact H1 | ].
    intros it Hit. rewrite Forall_forall in H2. exact (proj1 (H2 it Hit)).
  - intros codes acc item p c Hp Hc Hn. unfold visit_item. rewrite Hp, Hc.
    destruct (Str.is_empty c); [ reflexivity | ].
    destruct (CleanFacts.clean_num_strict_returns (Amount item)) as [amt [Ha _]].
    rewrite Ha. simpl.
    destruct (code_in (Str.strip c) codes) eqn:E; [ | reflexivity ].
    exfalso. apply Hn, ExtractFacts.code_in_iff, E.
  - intros excel_df analysis.
    destruct (ExtractFacts.extract_pdf_data_keeps analysis (map Material_Code excel_df))
      as [items [summary [H1 H2]]].
    exists items, summary. split; [ exact H1 | ].
    intros it Hit. rewrite Forall_forall in H2.
    destruct (H2 it Hit) as [Hin _]. apply in_map_iff in Hin as [r [Hr Hin]].
    exists r. split; assumption.
Qed.

(** A tax-table row with the code ["HSN9999"] is not passes_tests next to the
    spreadsheet code ["A1"]. *)
Lemma emitted_codes_are_spreadsheet_codes_witness :
  visit_item ["A1"] []
    {| ProductCode := text_field "HSN9999"; Amount := text_field "110" |} = Ok [].
Proof.
  apply (proj1 (proj2 emitted_codes_are_spreadsheet_codes) ["A1"] []
           {| ProductCode := text_field "HSN9999"; Amount := text_field "110" |}
           {| value_number := None; value_currency := None; content := Some "HSN9999" |}
           "HSN9999" eq_refl eq_refl).
  simpl. intros [H | []]. discriminate.
Defined.

(** C6.  A candidate whose code, in lower case, contains ["total"], or
    whose coerced amount equals zero, adds no line item; and no row of
    the frame [extract_pdf_data] returns has such a code or amount. *)
Theorem totals_and_zero_amounts_are_dropped :
  (forall (codes : list string) (acc : list LineItem) (item : ItemObject)
          (p : DocumentField) (c : string) (amt : float),
      ProductCode item = Some p -> content p = Some c ->
      clean_num_strict (Amount item) = Ok amt ->
      Str.contains "total" (Str.lower (Str.strip c)) = true
      \/ Float.eqb amt Float.zero = true ->
      visit_item codes acc item = Ok acc)
  /\ (forall (analysis : AnalyzeResult) (codes : list string),
         exists items summary,
           extract_pdf_data analysis codes = Ok (items, summary)
           /\ forall it, In it items ->
                Str.contains "total" (Str.lower (Material_Code_PDF it)) = false
                /\ Float.eqb (Total_PDF it) Float.zero = false).
Proof.
  split.
  - intros codes acc item p c amt Hp Hc Ha Hdrop. unfold visit_item.
    rewrite Hp, Hc. destruct (Str.is_empty c); [ reflexivity | ].
    rewrite Ha. simpl.
    destruct (code_in (Str.strip c) codes); simpl; [ | reflexivity ].
    destruct Hdrop as [H | H]; rewrite H.
    + reflexivity.
    + rewrite orb_true_r. reflexivity.
  - intros analysis codes.
    destruct (ExtractFacts.extract_pdf_data_keeps analysis codes) as [items [summary [H1 H2]]].
    exists items, summary. split; [ exact H1 | ].
    intros it Hit. rewrite Forall_forall in H2. exact (proj2 (H2 it Hit)).
Qed.

(** A subtotal row is dropped although its code is a spreadsheet code and
    its amount is not zero; an item of amount zero is dropped although its
    code is a spreadsheet code. *)
Lemma totals_and_zero_amounts_are_dropped_witness :
  visit_item ["Sub Total"] []
    {| ProductCode := text_field " Sub Total"; Amount := text_field "110" |} = Ok []
  /\ visit_item ["A1"] []
       {| ProductCode := text_field "A1"; Amount := text_field "0.00" |} = Ok [].
Proof.
  split.
  - apply (proj1 totals_and_zero_amounts_are_dropped ["Sub Total"] []
             {| ProductCode := text_field " Sub Total"; Amount := text_field "110" |}
             {| value_number := None; value_currency := None;
                content := Some " Sub Total" |}
             " Sub Total" (Float.decimal 110 0) eq_refl eq_refl eq_refl).
    left. reflexivity.
  - apply (proj1 totals_and_zero_amounts_are_dropped ["A1"] []
             {| ProductCode := text_field "A1"; Amount := text_field "0.00" |}
             {| value_number := None; value_currency := None; content := Some "A1" |}
             "A1" Float.zero eq_refl eq_refl eq_refl).
    right. reflexivity.
Defined.

(* ================================================================= *)
(** ** The outer join *)

Module MergeFacts.

Lemma insert_key_perm (k : string) (ks : list string) :
  Permutation (insert_key k ks) (k :: ks).
Proof.
  induction ks as [ | h t IH]; simpl.
  - apply Permutation_refl.
  - destruct (String.leb k h).
    + apply Permutation_refl.
    + apply perm_trans with (h :: k :: t).
      * apply perm_skip, IH.
      * apply perm_swap.
Qed.

Lemma sort_keys_perm (l : list string) : Permutation (sort_keys l) l.
Proof.
  induction l as [ | k l IH]; simpl.
  - apply perm_nil.
  - apply perm_trans with (k :: sort_keys l).
    + apply insert_key_perm.
    + apply perm_skip, IH.
Qed.

Lemma join_keys_In (k : string) (l : list string) : In k (join_keys l) <-> In k l.
Proof.
  unfold join_keys. split; intros H.
  - apply (nodup_In string_dec).
    exact (Permutation_in k (sort_keys_perm _) H).
  - apply (Permutation_in k (Permutation_sym (sort_keys_perm _))).
    apply nodup_In, H.
Qed.

Lemma join_keys_NoDup (l : list string) : NoDup (join_keys l).
Proof.
  unfold join_keys.
  apply (Permutation_NoDup (Permutation_sym (sort_keys_perm _))).
  apply NoDup_nodup.
Qed.

Lemma filter_all {A : Type} (f : A -> bool) (l : list A) :
  (forall a, In a l -> f a = true) -> filter f l = l.
Proof.
  induction l as [ | a l IH]; simpl; intros H.
  - reflexivity.
  - rewrite (H a (or_introl eq_refl)). f_equal. apply IH.
    intros b Hb. apply H. right. exact Hb.
Qed.

Lemma filter_none {A : Type} (f : A -> bool) (l : list A) :
  (forall a, In a l -> f a = false) -> filter f l = [].
Proof.
  induction l as [ | a l IH]; simpl; intros H.
  - reflexivity.
  - rewrite (H a (or_introl eq_refl)). apply IH.
    intros b Hb. apply H. right. exact Hb.
Qed.

Section Join.
Variables (left : list LineItem) (right : list (string * float)).

Lemma join_at_key (k : string) (x : string * float * float) :
  In x (join_at left right k) -> key_of x = k.
Proof.
  unfold join_at.
  destruct (filter _ left) as [ | l ls]; [ | destruct (filter _ right) as [ | r rs] ].
  - intros H. apply in_map_iff in H as [r [<- _]]. reflexivity.
  - intros H. apply in_map_iff in H as [l' [<- _]]. reflexivity.
  - intros H. apply in_flat_map in H as [l' [_ H]].
    apply in_map_iff in H as [r' [<- _]]. reflexivity.
Qed.

Lemma filter_join_at_same (k : string) :
  filter (fun x => (key_of x =? k)%string) (join_at left right k) = join_at left right k.
Proof.
  apply filter_all. intros x Hx. rewrite (join_at_key k x Hx). apply String.eqb_refl.
Qed.

Lemma filter_join_at_other (k h : string) :
  h <> k -> filter (fun x => (key_of x =? k)%string) (join_at left right h) = [].
Proof.
  intros Hne. apply filter_none. intros x Hx. rewrite (join_at_key h x Hx).
  apply String.eqb_neq, Hne.
Qed.

Lemma filter_joined_absent (k : string) (keys : list string) :
  ~ In k keys ->
  filter (fun x => (key_of x =? k)%string) (flat_map (join_at left right) keys) = [].
Proof.
  induction keys as [ | h t IH]; simpl; intros H.
  - reflexivity.
  - rewrite filter_app, filter_join_at_other, IH; [ reflexivity | tauto | ].
    intros ->. apply H. left. reflexivity.
Qed.

Lemma filter_joined_present (k : string) (keys : list string) :
  NoDup keys -> In k keys ->
  filter (fun x => (key_of x =? k)%string) (flat_map (join_at left right) keys)
  = join_at left right k.
Proof.
  induction keys as [ | h t IH]; simpl; intros Hnd Hin.
  - contradiction.
  - inversion Hnd as [ | h' t' Hh Ht]; subst. rewrite filter_app.
    destruct (string_dec h k) as [-> | Hne].
    + rewrite filter_join_at_same, filter_joined_absent, app_nil_r; [ reflexivity | exact Hh ].
    + rewrite filter_join_at_other, IH; [ reflexivity | exact Ht | | exact Hne ].
      destruct Hin as [Hin | Hin]; [ contradiction | exact Hin ].
Qed.

(** A key of neither side has no rows. *)
Lemma join_at_absent (k : string) :
  ~ In k (map Material_Code_PDF left ++ map fst right)%list -> join_at left right k = [].
Proof.
  intros H. unfold join_at.
  rewrite (filter_none _ left), (filter_none _ right); [ reflexivity | | ].
  - intros r Hr. apply String.eqb_neq. intros E. apply H, in_or_app. right.
    rewrite <- E. apply in_map, Hr.
  - intros l Hl. apply String.eqb_neq. intros E. apply H, in_or_app. left.
    rewrite <- E. apply in_map, Hl.
Qed.

(** The rows the join makes for a key are the rows of [join_at]. *)
Lemma filter_joined (k : string) :
  filter (fun x => (key_of x =? k)%string)
    (flat_map (join_at left right)
       (join_keys (map Material_Code_PDF left ++ map fst right)%list))
  = join_at left right k.
Proof.
  destruct (in_dec string_dec k (map Material_Code_PDF left ++ map fst right)%list)
    as [Hin | Hout].
  - apply filter_joined_present; [ apply join_keys_NoDup | apply join_keys_In, Hin ].
  - rewrite (join_at_absent k Hout). apply filter_joined_absent.
    intros H. apply Hout, join_keys_In, H.
Qed.

Lemma length_pairs {A B C : Type} (g : A -> B -> C) (ls : list A) (rs : list B) :
  List.length (flat_map (fun l => map (g l) rs) ls) = List.length ls * List.length rs.
Proof.
  induction ls as [ | l ls IH]; simpl.
  - reflexivity.
  - rewrite length_app, length_map, IH. reflexivity.
Qed.

Lemma length_join_at (k : string) :
  List.length (join_at left right k)
  = rows_for (List.length (filter (fun l => (Material_Code_PDF l =? k)%string) left))
             (List.length (filter (fun r => (fst r =? k)%string) right)).
Proof.
  unfold join_at.
  destruct (filter _ left) as [ | l ls]; [ | destruct (filter _ right) as [ | r rs] ].
  - rewrite length_map. reflexivity.
  - rewrite length_map. reflexivity.
  - rewrite (length_pairs (fun l r => (k, Total_PDF l, snd r))). reflexivity.
Qed.

End Join.

Lemma filter_comp_rows (tolerance : float) (k : string) (m : list (string * float * float)) :
  filter (fun r => (Code r =? k)%string) (map (comp_row tolerance) m)
  = map (comp_row tolerance) (filter (fun x => (key_of x =? k)%string) m).
Proof.
  induction m as [ | [[c p] e] m IH]; simpl.
  - reflexivity.
  - unfold key_of at 1. simpl. destruct (c =? k)%string; simpl; rewrite IH; reflexivity.
Qed.

(** With at least one line item the merge returns, and the rows of
    [comp_df] with the code [k] are the rows of [join_at] for [k]. *)
Lemma comp_rows_of_key (p : LineItem) (ps : list LineItem) (excel_df : list ExcelRow)
  (tolerance : float) :
  exists rows,
    merge_and_compare (p :: ps) excel_df tolerance = Ok rows
    /\ forall k,
         filter (fun r => (Code r =? k)%string) rows
         = map (comp_row tolerance) (join_at (p :: ps) (right_frame excel_df) k).
Proof.
  eexists. split; [ reflexivity | ].
  intros k. rewrite filter_comp_rows. f_equal. apply filter_joined.
Qed.

End MergeFacts.

Module JoinRows.
Import MergeFacts.

Lemma filter_right_frame (k : string) (excel_df : list ExcelRow) :
  filter (fun r => (fst r =? k)%string) (right_frame excel_df)
  = right_frame (filter (fun x => (Material_Code x =? k)%string) excel_df).
Proof.
  induction excel_df as [ | x l IH]; simpl.
  - reflexivity.
  - destruct (Material_Code x =? k)%string; simpl; rewrite IH; reflexivity.
Qed.

Lemma rows_for_one (n m : nat) : n <= 1 -> m <= 1 -> 0 < n + m -> rows_for n m = 1.
Proof.
  destruct n as [ | [ | n]], m as [ | [ | m]]; simpl; intros; (reflexivity || lia).
Qed.

Lemma rows_for_positive (n m : nat) : 0 < n + m -> 0 < rows_for n m.
Proof.
  destruct n as [ | n], m as [ | m]; simpl; intros; lia.
Qed.

(** The rows of a key the document does not have. *)
Lemma join_at_right_only (left : list LineItem) (right : list (string * float)) (k : string) :
  filter (fun l => (Material_Code_PDF l =? k)%string) left = [] ->
  join_at left right k
  = map (fun r => (k, Float.nan, snd r)) (filter (fun r => (fst r =? k)%string) right).
Proof. intros H. unfold join_at. rewrite H. reflexivity. Qed.

(** The rows of a key the spreadsheet does not have. *)
Lemma join_at_left_only (left : list LineItem) (right : list (string * float)) (k : string) :
  filter (fun r => (fst r =? k)%string) right = [] ->
  join_at left right k
  = map (fun l => (k, Total_PDF l, Float.nan))
      (filter (fun l => (Material_Code_PDF l =? k)%string) left).
Proof.
  intros H. unfold join_at. rewrite H.
  destruct (filter _ left); reflexivity.
Qed.

End JoinRows.

(** A code the spreadsheet lists twice gets two comparison rows, not one. *)
Lemma repeated_code_gets_two_rows :
  merge_and_compare one_item_a1 two_lines_a1 (Float.of_int 10)
  = Ok [ {| Code := "A1"; PDF := Float.of_int 110; EXCEL := Float.of_int 110;
            Status := Match |};
         {| Code := "A1"; PDF := Float.of_int 110; EXCEL := Float.of_int 7;
            Status := Mismatch |} ].
Proof. reflexivity. Qed.

(** C5, as the code has it.  Given at least one line item, the merge
    returns, and for every code [k] the comparison rows with that code
    are one per pairing of a line item of code [k] with a spreadsheet row
    of code [k], or one per row of the side that has [k] when the other
    side has not; so a code of either source has at least one row, and
    exactly one when it occurs at most once on each side.  The rows of a
    code only the spreadsheet has carry 0 as the document amount, those
    of a code only the document has carry 0 as the spreadsheet amount. *)
Theorem outer_join_rows_per_code
  (p : LineItem) (ps : list LineItem) (excel_df : list ExcelRow) (tolerance : float) :
  exists rows,
    merge_and_compare (p :: ps) excel_df tolerance = Ok rows
    /\ forall k : string,
         let from_pdf := filter (fun l => (Material_Code_PDF l =? k)%string) (p :: ps) in
         let from_excel := filter (fun x => (Material_Code x =? k)%string) excel_df in
         let rows_k := filter (fun r => (Code r =? k)%string) rows in
         List.length rows_k
         = rows_for (List.length from_pdf) (List.length from_excel)
         /\ (0 < List.length from_pdf + List.length from_excel -> 0 < List.length rows_k)
         /\ (List.length from_pdf <= 1 -> List.length from_excel <= 1 ->
             0 < List.length from_pdf + List.length from_excel ->
             List.length rows_k = 1)
         /\ (from_pdf = [] ->
             map (fun r => (PDF r, EXCEL r)) rows_k
             = map (fun x => (Float.zero, fillna0 (Total_EXCEL x))) from_excel)
         /\ (from_excel = [] ->
             map (fun r => (PDF r, EXCEL r)) rows_k
             = map (fun l => (fillna0 (Total_PDF l), Float.zero)) from_pdf).
Proof.
  destruct (MergeFacts.comp_rows_of_key p ps excel_df tolerance) as [rows [Hrun Hrows]].
  exists rows. split; [ exact Hrun | ].
  intros k from_pdf from_excel rows_k.
  assert (Hlen : List.length rows_k
                 = rows_for (List.length from_pdf) (List.length from_excel)).
  { unfold rows_k. rewrite Hrows, length_map, MergeFacts.length_join_at.
    rewrite JoinRows.filter_right_frame. unfold right_frame.
    rewrite length_map. reflexivity. }
  split; [ exact Hlen | ].
  split; [ intros H; rewrite Hlen; apply JoinRows.rows_for_positive, H | ].
  split; [ intros H1 H2 H3; rewrite Hlen; apply JoinRows.rows_for_one; assumption | ].
  split.
  - intros H. unfold rows_k. rewrite Hrows.
    rewrite (JoinRows.join_at_right_only _ _ k H), JoinRows.filter_right_frame.
    unfold right_frame. rewrite !map_map. reflexivity.
  - intros H. unfold rows_k. rewrite Hrows.
    rewrite JoinRows.join_at_left_only.
    + rewrite !map_map. reflexivity.
    + rewrite JoinRows.filter_right_frame. fold from_excel. rewrite H. reflexivity.
Qed.

(** A code only the spreadsheet has gets one row. *)
Lemma outer_join_rows_per_code_witness :
  exists rows,
    merge_and_compare one_item_a1
      [ {| Material_Code := "B2"; Qty_EXCEL := Float.of_int 1;
           Tax_EXCEL := Float.of_int 1; Total_EXCEL := Float.of_int 7 |} ]
      (Float.of_int 10) = Ok rows
    /\ List.length (filter (fun r => (Code r =? "B2")%string) rows) = 1.
Proof.
  destruct (outer_join_rows_per_code
              {| Material_Code_PDF := "A1"; Total_PDF := Float.of_int 110 |} []
              [ {| Material_Code := "B2"; Qty_EXCEL := Float.of_int 1;
                   Tax_EXCEL := Float.of_int 1; Total_EXCEL := Float.of_int 7 |} ]
              (Float.of_int 10)) as [rows [Hrun Hrows]].
  exists rows. split; [ exact Hrun | ].
  destruct (Hrows "B2") as [_ [_ [H _]]].
  apply H; simpl; lia.
Defined.

(* ================================================================= *)
(** ** The numbers of the normalizer *)

Module ExcelFacts.
Import FloatFacts.

Lemma apply_each_signed (l : list cell) :
  forall xs, apply_each clean_currency l = Ok xs -> Forall (Float.signed_as false) xs.
Proof.
  induction l as [ | c l IH]; simpl; intros xs H.
  - injection H as <-. constructor.
  - destruct (CleanFacts.clean_currency_signed c) as [x [Hx Hs]].
    rewrite Hx in H. simpl in H.
    destruct (apply_each clean_currency l) as [ys | e]; simpl in H; try discriminate.
    injection H as <-. constructor; [ exact Hs | apply IH; reflexivity ].
Qed.

Lemma cleaned_rows_signed (codes : list string) :
  forall qty tax total,
    Forall (Float.signed_as false) qty -> Forall (Float.signed_as false) tax ->
    Forall (Float.signed_as false) total ->
    Forall signed_row (cleaned_rows codes qty tax total).
Proof.
  induction codes as [ | c codes IH]; intros qty tax total Hq Ht Ha; simpl.
  - constructor.
  - destruct Hq as [ | q qty Hq Hqs]; [ constructor | ].
    destruct Ht as [ | t tax Ht Hts]; [ constructor | ].
    destruct Ha as [ | a total Ha Has]; [ constructor | ].
    constructor; [ repeat split; assumption | apply IH; assumption ].
Qed.

Lemma clean_with_header_signed (file : Sheet) (i : nat) (excel_df : list ExcelRow) :
  clean_with_header file i = Ok excel_df -> Forall signed_row excel_df.
Proof.
  unfold clean_with_header.
  destruct (iloc_col _ 0) as [c0 | e]; simpl; try discriminate.
  destruct (iloc_col _ 4) as [c4 | e]; simpl; try discriminate.
  destruct (apply_each clean_currency c4) as [qty | e] eqn:Eq; simpl; try discriminate.
  destruct (iloc_col _ 10) as [c10 | e]; simpl; try discriminate.
  destruct (apply_each clean_currency c10) as [tax | e] eqn:Et; simpl; try discriminate.
  destruct (iloc_col _ 11) as [c11 | e]; simpl; try discriminate.
  destruct (apply_each clean_currency c11) as [total | e] eqn:Ea; simpl; try discriminate.
  intros H. injection H as <-.
  apply Forall_forall. intros x Hx. apply filter_In in Hx as [Hx _].
  revert x Hx. apply Forall_forall.
  apply cleaned_rows_signed; eapply apply_each_signed; eassumption.
Qed.

(** Every amount the normalizer returns is a number without sign. *)
Lemma load_and_clean_excel_signed (file : Sheet) (excel_df : list ExcelRow) :
  load_and_clean_excel file = Ok excel_df -> Forall signed_row excel_df.
Proof.
  unfold load_and_clean_excel.
  destruct (header_row_idx _) as [i | e]; simpl; try discriminate.
  apply clean_with_header_signed.
Qed.

End ExcelFacts.

(* ================================================================= *)
(** ** Item status *)

Module StatusFacts.

Lemma status_match (p e t : float) :
  item_status p e t = Match <-> Float.leb (Float.abs (Float.sub p e)) t = true.
Proof.
  unfold item_status. destruct (Float.leb _ t); split; (reflexivity || discriminate).
Qed.

Lemma status_mismatch (p e t : float) :
  item_status p e t = Mismatch <-> Float.leb (Float.abs (Float.sub p e)) t = false.
Proof.
  unfold item_status. destruct (Float.leb _ t); split; (reflexivity || discriminate).
Qed.

(** The status of a row of [comp_df] is the status of its two amounts. *)
Lemma comp_row_status (tolerance : float) (x : string * float * float) :
  Status (comp_row tolerance x)
  = item_status (PDF (comp_row tolerance x)) (EXCEL (comp_row tolerance x)) tolerance.
Proof. destruct x as [[k p] e]. reflexivity. Qed.

Lemma merge_and_compare_rows (pdf_df : list LineItem) (excel_df : list ExcelRow)
  (tolerance : float) (rows : list CompRow) :
  merge_and_compare pdf_df excel_df tolerance = Ok rows ->
  forall r, In r rows -> Status r = item_status (PDF r) (EXCEL r) tolerance.
Proof.
  unfold merge_and_compare.
  destruct (merge_outer pdf_df _) as [m | e]; simpl; try discriminate.
  intros H. injection H as <-. intros r Hr.
  apply in_map_iff in Hr as [x [<- _]]. apply comp_row_status.
Qed.

(** The status of a row whose document side is missing. *)
Lemma status_of_missing_item (t tolerance : float) :
  Float.signed_as false t ->
  item_status Float.zero t tolerance
  = if Float.leb t tolerance then Match else Mismatch.
Proof.
  intros H. apply FloatFacts.signed_as_false in H as [H1 H2].
  unfold item_status. rewrite (FloatFacts.abs_zero_sub t H1 H2). reflexivity.
Qed.

Lemma fillna0_signed (t : float) : Float.signed_as false t -> fillna0 t = t.
Proof. destruct t; simpl; intros H; (contradiction || reflexivity). Qed.

End StatusFacts.

(** C4.  For a tolerance that is at least zero, a row of [comp_df] has
    the status Match exactly when the absolute difference of its two
    amounts is at most the tolerance, and Mismatch otherwise; a
    difference equal to the tolerance is a Match, a larger one a
    Mismatch. *)
Theorem item_status_within_tolerance
  (pdf_df : list LineItem) (excel_df : list ExcelRow) (tolerance : float)
  (rows : list CompRow) (r : CompRow) :
  Float.nonneg tolerance = true ->
  merge_and_compare pdf_df excel_df tolerance = Ok rows ->
  In r rows ->
  let d := Float.abs (Float.sub (PDF r) (EXCEL r)) in
  (Status r = Match <-> Float.leb d tolerance = true)
  /\ (Status r = Mismatch <-> Float.leb d tolerance = false)
  /\ (d = tolerance -> Status r = Match)
  /\ (Float.ltb tolerance d = true -> Status r = Mismatch).
Proof.
  intros Htol Hrun Hr d.
  rewrite (StatusFacts.merge_and_compare_rows _ _ _ _ Hrun r Hr).
  split; [ apply StatusFacts.status_match | ].
  split; [ apply StatusFacts.status_mismatch | ].
  split.
  - intros Hd. apply StatusFacts.status_match. fold d. rewrite Hd.
    apply FloatFacts.leb_refl, FloatFacts.nonneg_not_nan, Htol.
  - intros Hd. apply StatusFacts.status_mismatch. fold d.
    apply FloatFacts.ltb_not_leb, Hd.
Qed.

(** Document amount 110 against spreadsheet total 100 at tolerance 10:
    the difference equals the tolerance and the row is a Match. *)
Lemma item_status_within_tolerance_witness :
  Float.nonneg float_10 = true
  /\ merge_and_compare one_item_a1 line_a1_100 float_10 = Ok [row_a1_110_100]
  /\ Float.abs (Float.sub (PDF row_a1_110_100) (EXCEL row_a1_110_100)) = float_10
  /\ Status row_a1_110_100 = Match.
Proof.
  split; [ reflexivity | ].
  split; [ reflexivity | ].
  split; [ reflexivity | ].
  apply (item_status_within_tolerance one_item_a1 line_a1_100 float_10
           [row_a1_110_100] row_a1_110_100).
  - reflexivity.
  - reflexivity.
  - left. reflexivity.
  - reflexivity.
Defined.

(* ================================================================= *)
(** ** A code the document does not have *)

(** C10.  With no line item left after the filter the merge raises
    [KeyError], and so does the run on a sheet with the line ["A1"] and a
    document without that code: no comparison row is made.  With at
    least one line item the merge returns; a spreadsheet row whose code
    no line item has is in [comp_df] with the document amount 0 and the
    status Match exactly when its total is at most the tolerance, and
    every comparison row of that code is of this kind. *)
Theorem spreadsheet_only_code_row :
  (forall (excel_df : list ExcelRow) (tolerance : float),
      merge_and_compare [] excel_df tolerance = Raise KeyError)
  /\ start_reconciliation sum_left sheet_a1 analysis_hsn float_10 = Raise KeyError
  /\ (forall (file : Sheet) (excel_df : list ExcelRow) (p : LineItem) (ps : list LineItem)
             (tolerance : float) (x : ExcelRow),
         load_and_clean_excel file = Ok excel_df ->
         In x excel_df ->
         ~ In (Material_Code x) (map Material_Code_PDF (p :: ps)) ->
         exists rows,
           merge_and_compare (p :: ps) excel_df tolerance = Ok rows
           /\ In {| Code := Material_Code x;
                    PDF := Float.zero;
                    EXCEL := Total_EXCEL x;
                    Status := if Float.leb (Total_EXCEL x) tolerance
                              then Match else Mismatch |} rows
           /\ forall r, In r rows -> Code r = Material_Code x ->
                PDF r = Float.zero
                /\ (Status r = Match <-> Float.leb (EXCEL r) tolerance = true)).
Proof.
  split; [ reflexivity | ].
  split; [ reflexivity | ].
  intros file excel_df p ps tolerance x Hload Hx Habsent.
  pose proof (ExcelFacts.load_and_clean_excel_signed file excel_df Hload) as Hsigned.
  rewrite Forall_forall in Hsigned.
  destruct (MergeFacts.comp_rows_of_key p ps excel_df tolerance) as [rows [Hrun Hrows]].
  exists rows. split; [ exact Hrun | ].
  set (k := Material_Code x) in *.
  assert (Hleft : filter (fun l => (Material_Code_PDF l =? k)%string) (p :: ps) = []).
  { apply MergeFacts.filter_none. intros l Hl. apply String.eqb_neq. intros E.
    apply Habsent. rewrite <- E. apply in_map, Hl. }
  specialize (Hrows k).
  rewrite (JoinRows.join_at_right_only _ _ k Hleft), JoinRows.filter_right_frame in Hrows.
  unfold right_frame in Hrows. rewrite !map_map in Hrows. cbn [snd] in Hrows.
  assert (Hrow : forall y, In y excel_df -> Material_Code y = k ->
            comp_row tolerance (k, Float.nan, Total_EXCEL y)
            = {| Code := k; PDF := Float.zero; EXCEL := Total_EXCEL y;
                 Status := if Float.leb (Total_EXCEL y) tolerance
                           then Match else Mismatch |}).
  { intros y Hy _. destruct (Hsigned y Hy) as [_ [_ Ht]].
    unfold comp_row. simpl (fillna0 Float.nan).
    rewrite (StatusFacts.fillna0_signed _ Ht), (StatusFacts.status_of_missing_item _ _ Ht).
    reflexivity. }
  split.
  - rewrite <- (Hrow x Hx eq_refl).
    assert (Hin : In (comp_row tolerance (k, Float.nan, Total_EXCEL x))
                    (filter (fun r => (Code r =? k)%string) rows)).
    { rewrite Hrows. apply in_map_iff. exists x. split; [ reflexivity | ].
      apply filter_In. split; [ exact Hx | apply String.eqb_refl ]. }
    apply filter_In in Hin. exact (proj1 Hin).
  - intros r Hr Hcode.
    assert (Hin : In r (filter (fun r => (Code r =? k)%string) rows)).
    { apply filter_In. split; [ exact Hr | rewrite Hcode; apply String.eqb_refl ]. }
    rewrite Hrows in Hin. apply in_map_iff in Hin as [y [Hy Hin]].
    apply filter_In in Hin as [Hyin Hyk]. apply String.eqb_eq in Hyk.
    rewrite (Hrow y Hyin Hyk) in Hy. subst r. simpl. split; [ reflexivity | ].
    destruct (Float.leb (Total_EXCEL y) tolerance); split; (reflexivity || discriminate).
Qed.

(** The document has the item ["B2"] only; the line ["A1"] of the
    spreadsheet, total 5, is reported as a Match at tolerance 10. *)
Lemma spreadsheet_only_code_row_witness :
  load_and_clean_excel sheet_a1_b2 = Ok [line_a1; line_b2]
  /\ exists rows,
       merge_and_compare [item_b2] [line_a1; line_b2] float_10 = Ok rows
       /\ In {| Code := "A1"; PDF := Float.zero; EXCEL := Float.of_int 5;
                Status := Match |} rows.
Proof.
  split; [ reflexivity | ].
  destruct (proj2 (proj2 spreadsheet_only_code_row)
              sheet_a1_b2 [line_a1; line_b2] item_b2 [] float_10 line_a1)
    as [rows [Hrun [Hin _]]].
  - reflexivity.
  - left. reflexivity.
  - simpl. intros [H | []]. discriminate.
  - exists rows. split; [ exact Hrun | exact Hin ].
Defined.

(* ================================================================= *)
(** ** Grand totals *)

(** C3.  The first row of [summary_results] is the quantity row.  Its
    difference is the document quantity minus the sum of the spreadsheet
    quantities, and its status is Match exactly when that difference
    equals zero; the row is the same whatever the tolerance, and a
    difference of 0.0001, either way round, gives Mismatch. *)
Theorem quantity_total_is_exact
  (series_sum : list float -> float) (pdf_summary : Summary)
  (excel_df : list ExcelRow) (tolerance : float) :
  let diff :=
    Float.sub (Gross_Total_Qty pdf_summary) (series_sum (map Qty_EXCEL excel_df)) in
  exists q rest,
    summary_results series_sum pdf_summary excel_df tolerance = q :: rest
    /\ Metric q = "Total Quantity"
    /\ Difference q = diff
    /\ (Summary_Status q = Match <-> Float.eqb diff Float.zero = true)
    /\ (Summary_Status q = Mismatch <-> Float.eqb diff Float.zero = false)
    /\ (forall tolerance' : float,
           hd_error (summary_results series_sum pdf_summary excel_df tolerance') = Some q)
    /\ (diff = float_0_0001 \/ diff = SFopp float_0_0001 -> Summary_Status q = Mismatch).
Proof.
  intros diff. unfold summary_results. fold diff.
  do 2 eexists. split; [ reflexivity | ]. simpl.
  split; [ reflexivity | ].
  split; [ reflexivity | ].
  split; [ destruct (Float.eqb diff Float.zero); split; (reflexivity || discriminate) | ].
  split; [ destruct (Float.eqb diff Float.zero); split; (reflexivity || discriminate) | ].
  split; [ reflexivity | ].
  intros [-> | ->]; reflexivity.
Qed.

(** Document quantity 100 against a spreadsheet quantity of 100.0001:
    Mismatch at the largest tolerance of the slider, 50. *)
Lemma quantity_total_is_exact_witness :
  hd_error
    (map Summary_Status
       (summary_results sum_left
          {| Gross_Total_Qty := Float.of_int 100;
             Total_Tax_Footer := Float.zero;
             Grand_Total_Footer := Float.zero |}
          [ {| Material_Code := "A1"; Qty_EXCEL := float_100_0001;
               Tax_EXCEL := Float.zero; Total_EXCEL := Float.zero |} ]
          (Float.of_int 50)))
  = Some Mismatch.
Proof.
  destruct (quantity_total_is_exact sum_left
              {| Gross_Total_Qty := Float.of_int 100;
                 Total_Tax_Footer := Float.zero;
                 Grand_Total_Footer := Float.zero |}
              [ {| Material_Code := "A1"; Qty_EXCEL := float_100_0001;
                   Tax_EXCEL := Float.zero; Total_EXCEL := Float.zero |} ]
              (Float.of_int 50)) as [q [rest [Hrows [_ [_ [_ [Hmis _]]]]]]].
  rewrite Hrows. simpl. f_equal. apply Hmis. reflexivity.
Defined.

(* ================================================================= *)
(** ** Overall accuracy *)

Module AccuracyFacts.

(** With no spreadsheet code nothing is passes_tests. *)
Lemma no_codes_no_items (analysis : AnalyzeResult) :
  exists summary, extract_pdf_data analysis [] = Ok ([], summary).
Proof.
  destruct (ExtractFacts.extract_pdf_data_keeps analysis []) as [items [summary [H1 H2]]].
  exists summary. rewrite H1. destruct items as [ | it items]; [ reflexivity | ].
  inversion H2 as [ | ? ? [Hin _] _]. destruct Hin.
Qed.

(** A merge that returns has at least one row: the rows of the first
    line item. *)
Lemma merge_never_empty (pdf_df : list LineItem) (excel_df : list ExcelRow)
  (tolerance : float) (rows : list CompRow) :
  merge_and_compare pdf_df excel_df tolerance = Ok rows -> rows <> [].
Proof.
  destruct pdf_df as [ | p ps]; [ discriminate | ].
  destruct (MergeFacts.comp_rows_of_key p ps excel_df tolerance) as [rows' [Hrun Hrows]].
  rewrite Hrun. intros H. injection H as <-. intros Hnil.
  specialize (Hrows (Material_Code_PDF p)).
  apply (f_equal (@List.length CompRow)) in Hrows.
  rewrite Hnil, length_map, MergeFacts.length_join_at in Hrows.
  simpl in Hrows. rewrite String.eqb_refl in Hrows. simpl in Hrows.
  destruct (List.length (filter _ (right_frame excel_df))); simpl in Hrows; lia.
Qed.

End AccuracyFacts.

(** C1.  On no comparison rows the accuracy expression raises
    [ZeroDivisionError]; on one row or more it is the number of Match
    rows divided by the number of rows, times 100.  In a run the
    expression never meets an empty [comp_df], because a merge that
    returns has a row; a run whose spreadsheet has no lines stops before,
    at the merge, with [KeyError], as on the sheet with nothing but a
    header row. *)
Theorem accuracy_of_comparison_rows :
  overall_accuracy [] = Raise ZeroDivisionError
  /\ (forall (r : CompRow) (rows : list CompRow),
         overall_accuracy (r :: rows)
         = Ok (Float.mul
                 (Float.div
                    (Float.exact_int
                       (Z.of_nat (List.length
                                    (filter (fun x => is_match (Status x)) (r :: rows)))))
                    (Float.exact_int (Z.of_nat (List.length (r :: rows)))))
                 (Float.of_int 100)))
  /\ (forall (pdf_df : list LineItem) (excel_df : list ExcelRow)
             (tolerance : float) (rows : list CompRow),
         merge_and_compare pdf_df excel_df tolerance = Ok rows -> rows <> [])
  /\ (forall (series_sum : list float -> float) (file : Sheet)
             (analysis : AnalyzeResult) (tolerance : float),
         load_and_clean_excel file = Ok [] ->
         start_reconciliation series_sum file analysis tolerance = Raise KeyError)
  /\ start_reconciliation sum_left sheet_header_only analysis_hsn float_10
     = Raise KeyError.
Proof.
  split; [ reflexivity | ].
  split; [ intros r rows; reflexivity | ].
  split; [ exact AccuracyFacts.merge_never_empty | ].
  split; [ | reflexivity ].
  intros series_sum file analysis tolerance Hload.
  unfold start_reconciliation. rewrite Hload. simpl.
  destruct (AccuracyFacts.no_codes_no_items analysis) as [summary H].
  rewrite H. reflexivity.
Qed.

(** The header-only sheet is read as no lines, and the run on it raises. *)
Lemma accuracy_of_comparison_rows_witness :
  load_and_clean_excel sheet_header_only = Ok []
  /\ start_reconciliation sum_left sheet_header_only analysis_hsn float_10
     = Raise KeyError.
Proof.
  split; [ reflexivity | ].
  apply (proj1 (proj2 (proj2 (proj2 accuracy_of_comparison_rows)))).
  reflexivity.
Defined.

(* ================================================================= *)
(** ** Runs on the sample inputs *)

(** The normalizer drops the prefix and the blanks of a code. *)
Example clean_code_sample : clean_code (Val "TR-A1 ") = "A1".
Proof. reflexivity. Qed.

(** The quantity is read after either label, the first pattern first. *)
Example gross_total_qty_sample :
  extract_gross_total_qty "gross   total : 125 pcs" = Float.of_int 125
  /\ extract_gross_total_qty "GrossTotal 7 ; TOTAL  QTY- 12" = Float.of_int 12
  /\ extract_gross_total_qty "Total 12" = Float.zero.
Proof. repeat split; reflexivity. Qed.

(** First scenario of the specification: one line, one item of the same
    amount, matching footers.  One comparison row, a Match; the three
    grand totals match; the accuracy is 100. *)
Example run_all_match :
  start_reconciliation sum_left sheet_scenario (analysis_scenario "110.00") float_10
  = Ok {| comp_df :=
            [ {| Code := "A1"; PDF := Float.of_int 110; EXCEL := Float.of_int 110;
                 Status := Match |} ];
          grand_totals :=
            [ {| Metric := "Total Quantity"; PDF_Data := Float.of_int 5;
                 Excel_Sum := Float.of_int 5; Difference := Float.zero;
                 Summary_Status := Match |};
              {| Metric := "Total Tax"; PDF_Data := Float.of_int 10;
                 Excel_Sum := Float.of_int 10; Difference := Float.zero;
                 Summary_Status := Match |};
              {| Metric := "Grand Total"; PDF_Data := Float.of_int 110;
                 Excel_Sum := Float.of_int 110; Difference := Float.zero;
                 Summary_Status := Match |} ];
          accuracy := Float.of_int 100 |}.
Proof. reflexivity. Qed.

(** Second scenario: the document says 140 where the spreadsheet says
    110; at tolerance 10 the row is a Mismatch and the accuracy is 0. *)
Example run_mismatch :
  option_map (fun r => (comp_df r, accuracy r))
    match start_reconciliation sum_left sheet_scenario (analysis_scenario "140") float_10 with
    | Ok r => Some r
    | Raise _ => None
    end
  = Some ([ {| Code := "A1"; PDF := Float.of_int 140; EXCEL := Float.of_int 110;
               Status := Mismatch |} ],
          Float.zero).
Proof. reflexivity. Qed.

(* ================================================================= *)
(** * Further properties of the program *)

(* ================================================================= *)
(** ** The normalizer *)

(** X1.  The normalizer returns exactly when some row of the sheet has a
    cell containing ["SKU"] and the sheet is at least twelve columns
    wide; in every other case it raises [IndexError]. *)
Theorem normalizer_needs_header_and_twelve_columns (file : Sheet) :
  if existsb row_has_marker (rows (read_excel file None)) && (12 <=? ncols file)
  then exists excel_df, load_and_clean_excel file = Ok excel_df
  else load_and_clean_excel file = Raise IndexError.
Proof.
  unfold load_and_clean_excel, header_row_idx.
  rewrite NormalizerFacts.first_index_existsb.
  destruct (first_index row_has_marker (rows (read_excel file None))) as [i | ];
    cbn [bind andb]; [ | reflexivity ].
  destruct (12 <=? ncols file) eqn:E.
  - apply Nat.leb_le in E. rewrite (NormalizerFacts.clean_with_header_rows file i E).
    eexists. reflexivity.
  - apply Nat.leb_gt in E. apply NormalizerFacts.clean_with_header_narrow, E.
Qed.

(** X2.  When the header is row [i] and the sheet has twelve columns or
    more, the normalizer returns one record per data row below the
    header, in the order of the sheet, built from the cells 0, 4, 10 and
    11 of that same row, and leaves out the rows whose code reads
    ["nan"]. *)
Theorem normalizer_reads_row_by_row (file : Sheet) (i : nat) :
  first_index row_has_marker (rows (read_excel file None)) = Some i ->
  12 <= ncols file ->
  load_and_clean_excel file
  = Ok (filter (fun x => negb (Material_Code x =? "nan")%string)
          (map record_of_row (skipn (S i) (rows (read_excel file None))))).
Proof.
  intros Hi Hw. unfold load_and_clean_excel, header_row_idx. rewrite Hi.
  cbn [bind]. apply (NormalizerFacts.clean_with_header_rows file i Hw).
Qed.

Lemma normalizer_reads_row_by_row_witness :
  load_and_clean_excel sheet_a1_b2
  = Ok (filter (fun x => negb (Material_Code x =? "nan")%string)
          (map record_of_row (skipn 1 (rows (read_excel sheet_a1_b2 None))))).
Proof.
  apply (normalizer_reads_row_by_row sheet_a1_b2 0).
  - reflexivity.
  - simpl. lia.
Defined.

(** X3.  Every record the normalizer returns has a code that is not
    ["nan"] and has no blank at either end, and a quantity, a tax and a
    total that are at least zero. *)
Theorem normalizer_records_are_clean (file : Sheet) (excel_df : list ExcelRow) (x : ExcelRow) :
  load_and_clean_excel file = Ok excel_df ->
  In x excel_df ->
  Material_Code x <> "nan"
  /\ Str.strip (Material_Code x) = Material_Code x
  /\ Float.nonneg (Qty_EXCEL x) = true
  /\ Float.nonneg (Tax_EXCEL x) = true
  /\ Float.nonneg (Total_EXCEL x) = true.
Proof.
  intros Hload Hx.
  pose proof (ExcelFacts.load_and_clean_excel_signed file excel_df Hload) as Hs.
  rewrite Forall_forall in Hs. destruct (Hs x Hx) as [Hq [Ht Ha]].
  assert (Hnn : forall y, Float.signed_as false y -> Float.nonneg y = true).
  { intros y Hy. apply FloatFacts.signed_as_false in Hy as [H1 H2].
    apply FloatFacts.sign_clear_nonneg; assumption. }
  unfold load_and_clean_excel, header_row_idx in Hload.
  destruct (first_index row_has_marker (rows (read_excel file None))) as [i | ];
    [ | discriminate ].
  cbn [bind] in Hload.
  destruct (le_lt_dec 12 (ncols file)) as [Hw | Hw].
  - rewrite (NormalizerFacts.clean_with_header_rows file i Hw) in Hload.
    injection Hload as <-. apply filter_In in Hx as [Hx Hnan].
    apply in_map_iff in Hx as [r [<- _]].
    split; [ | split; [ | repeat split; apply Hnn; assumption ] ].
    + intros E. simpl in Hnan, E. rewrite E in Hnan. discriminate.
    + simpl. unfold clean_code. apply NormalizerFacts.strip_idempotent.
  - rewrite (NormalizerFacts.clean_with_header_narrow file i Hw) in Hload. discriminate.
Qed.

Lemma normalizer_records_are_clean_witness :
  Material_Code line_a1 <> "nan"
  /\ Str.strip (Material_Code line_a1) = Material_Code line_a1
  /\ Float.nonneg (Qty_EXCEL line_a1) = true
  /\ Float.nonneg (Tax_EXCEL line_a1) = true
  /\ Float.nonneg (Total_EXCEL line_a1) = true.
Proof.
  apply (normalizer_records_are_clean sheet_a1_b2 [line_a1; line_b2] line_a1).
  - reflexivity.
  - left. reflexivity.
Defined.

(* ================================================================= *)
(** ** Reading a number out of text *)

Module ParseFacts.

Lemma sub_non_numeric_app (a b : string) :
  Str.sub_non_numeric (a ++ b) = Str.sub_non_numeric a ++ Str.sub_non_numeric b.
Proof.
  induction a as [ | c r IH]; simpl.
  - reflexivity.
  - destruct (Str.is_digit c || Ascii.eqb c "."); simpl; rewrite IH; reflexivity.
Qed.

(** A digit is no point. *)
Lemma digit_not_point (c : ascii) : Str.is_digit c = true -> Ascii.eqb c "." = false.
Proof.
  intros H. destruct (Ascii.eqb c ".") eqn:E; [ | reflexivity ].
  apply Ascii.eqb_eq in E. subst. discriminate.
Qed.

Lemma has_digit_cleaned (t : string) : has_digit (Str.sub_non_numeric t) = has_digit t.
Proof.
  induction t as [ | c r IH]; simpl.
  - reflexivity.
  - destruct (Str.is_digit c) eqn:D; simpl; [ rewrite D; reflexivity | ].
    destruct (Ascii.eqb c "."); simpl; [ rewrite D | ]; exact IH.
Qed.

Lemma count_points_cleaned (t : string) :
  count_points (Str.sub_non_numeric t) = count_points t.
Proof.
  induction t as [ | c r IH]; simpl.
  - reflexivity.
  - destruct (Ascii.eqb c ".") eqn:P.
    + rewrite orb_true_r. simpl. rewrite P, IH. reflexivity.
    + rewrite orb_false_r. destruct (Str.is_digit c); simpl; [ rewrite P | ]; exact IH.
Qed.

Lemma digits_only_cleaned (t : string) :
  digits_only (Str.sub_non_numeric t) = digits_only t.
Proof.
  induction t as [ | c r IH]; simpl.
  - reflexivity.
  - destruct (Str.is_digit c) eqn:D; simpl; [ rewrite D, IH; reflexivity | ].
    destruct (Ascii.eqb c "."); simpl; [ rewrite D | ]; exact IH.
Qed.

Lemma frac_digits_cleaned (t : string) :
  frac_digits (Str.sub_non_numeric t) = frac_digits t.
Proof.
  induction t as [ | c r IH]; simpl.
  - reflexivity.
  - destruct (Ascii.eqb c ".") eqn:P.
    + rewrite orb_true_r. simpl. rewrite P, digits_only_cleaned. reflexivity.
    + rewrite orb_false_r. destruct (Str.is_digit c); simpl; [ rewrite P | ]; exact IH.
Qed.

(** On a run of digits: no point, the digits are the text, and there is
    a digit unless the text is empty. *)
Lemma all_digits_facts (s : string) :
  Str.all_digits s = true ->
  count_points s = 0 /\ digits_only s = s /\ has_digit s = negb (Str.is_empty s).
Proof.
  induction s as [ | c r IH]; simpl; intros H.
  - repeat split.
  - apply andb_true_iff in H as [D H]. destruct (IH H) as [H1 [H2 _]].
    rewrite D, (digit_not_point c D), H1, H2. repeat split.
Qed.

(** On a text of digits and points without a point, all are digits. *)
Lemma numeric_no_point (s : string) :
  Str.numeric_text s = true -> count_points s = 0 -> Str.all_digits s = true.
Proof.
  induction s as [ | c r IH]; simpl; intros H P.
  - reflexivity.
  - apply andb_true_iff in H as [C H].
    destruct (Ascii.eqb c "."); [ discriminate | ].
    rewrite orb_false_r in C. rewrite C. simpl. apply IH; assumption.
Qed.

Lemma with_point_not_digits (s : string) :
  0 < count_points s -> Str.all_digits s = false.
Proof.
  intros H. destruct (Str.all_digits s) eqn:E; [ | reflexivity ].
  destruct (all_digits_facts s E) as [H0 _]. lia.
Qed.

(** How [split_point] cuts a text of digits and points. *)
Lemma split_point_numeric (s : string) :
  Str.numeric_text s = true ->
  match Str.split_point s with
  | (ip, None) => ip = s /\ count_points s = 0
  | (ip, Some fp) =>
      Str.all_digits ip = true
      /\ Str.numeric_text fp = true
      /\ count_points s = S (count_points fp)
      /\ digits_only s = ip ++ digits_only fp
      /\ frac_digits s = String.length (digits_only fp)
      /\ has_digit s = has_digit ip || has_digit fp
  end.
Proof.
  induction s as [ | c r IH]; simpl; intros H.
  - split; reflexivity.
  - apply andb_true_iff in H as [C H]. destruct (Ascii.eqb c ".") eqn:P.
    + assert (D : Str.is_digit c = false).
      { destruct (Str.is_digit c) eqn:D; [ | reflexivity ].
        rewrite (digit_not_point c D) in P. discriminate. }
      rewrite D. simpl. repeat split. exact H.
    + rewrite orb_false_r in C. rewrite C. specialize (IH H).
      destruct (Str.split_point r) as [ip [fp | ]].
      * destruct IH as [H1 [H2 [H3 [H4 [H5 H6]]]]]. simpl.
        rewrite ?C, H1, H3, H4, H5. simpl. repeat split; assumption.
      * destruct IH as [H1 H2]. subst ip. rewrite H2. split; reflexivity.
Qed.

(** [float] on cleaned text: the number the digits write, scaled by the
    digits after the point, when there is a digit and at most one point;
    a [ValueError] otherwise. *)
Lemma to_float_numeric (s : string) :
  Str.numeric_text s = true ->
  Str.to_float s
  = if has_digit s && (count_points s <=? 1)
    then Ok (Float.decimal (Str.digits_value 0 (digits_only s)) (frac_digits s))
    else Raise ValueError.
Proof.
  intros H. pose proof (split_point_numeric s H) as Hs. unfold Str.to_float.
  destruct (Str.split_point s) as [ip [fp | ]].
  - destruct Hs as [H1 [H2 [H3 [H4 [H5 H6]]]]]. rewrite H1, H3, H6. simpl.
    destruct (count_points fp) as [ | n] eqn:P.
    + pose proof (numeric_no_point fp H2 P) as Hf. rewrite Hf.
      destruct (all_digits_facts ip H1) as [_ [_ Hi]].
      destruct (all_digits_facts fp Hf) as [_ [Hd Hg]].
      rewrite Hi, Hg, H4, H5, Hd. simpl. rewrite andb_true_r.
      rewrite <- negb_andb. destruct (negb _); reflexivity.
    + rewrite (with_point_not_digits fp ltac:(lia)). simpl. rewrite andb_false_r.
      reflexivity.
  - destruct Hs as [-> P]. rewrite P. simpl. rewrite andb_true_r.
    pose proof (numeric_no_point s H P) as Hd. rewrite Hd. simpl.
    destruct (all_digits_facts s Hd) as [_ [Hdo Hg]]. rewrite Hg, Hdo.
    assert (F : frac_digits s = 0).
    { clear - P. induction s as [ | c r IH]; simpl in *; [ reflexivity | ].
      destruct (Ascii.eqb c "."); [ discriminate | apply IH, P ]. }
    rewrite F. destruct (negb _); reflexivity.
Qed.

End ParseFacts.

(** X4.  [clean_currency] reads the number the digits of the text write,
    scaled by the number of digits after the point, when the text has a
    digit and at most one point; every other character is ignored.  A
    text without digit or with two points or more reads as [0.0]. *)
Theorem clean_currency_reads_digits_and_point (t : string) :
  clean_currency (Val t)
  = if has_digit t && (count_points t <=? 1)
    then Ok (Float.decimal (Str.digits_value 0 (digits_only t)) (frac_digits t))
    else Ok Float.zero.
Proof.
  unfold clean_currency. cbn [isna cell_str].
  rewrite (ParseFacts.to_float_numeric _ (CleanFacts.sub_non_numeric_text t)).
  rewrite ParseFacts.has_digit_cleaned, ParseFacts.count_points_cleaned,
    ParseFacts.digits_only_cleaned, ParseFacts.frac_digits_cleaned.
  destruct (has_digit t && (count_points t <=? 1)); reflexivity.
Qed.

(** X5.  A character that is neither a digit nor a point changes nothing
    wherever it stands in the text of a cell: signs, blanks, thousands
    separators and currency letters are all dropped alike. *)
Theorem clean_currency_ignores_other_characters (a b : string) (c : ascii) :
  Str.is_digit c = false -> c <> "."%char ->
  clean_currency (Val (a ++ String c b)) = clean_currency (Val (a ++ b)).
Proof.
  intros D P. unfold clean_currency. cbn [isna cell_str].
  rewrite !ParseFacts.sub_non_numeric_app. simpl.
  apply Ascii.eqb_neq in P. rewrite D, P. reflexivity.
Qed.

Lemma clean_currency_ignores_other_characters_witness :
  clean_currency (Val "1,200") = clean_currency (Val "1200").
Proof.
  apply (clean_currency_ignores_other_characters "1" "200" ","%char).
  - reflexivity.
  - discriminate.
Defined.

(** X6.  On a field without structured number [clean_num_strict] and
    [clean_currency] agree: the text of the field reads as the same cell
    text would, and a field without text reads as a missing cell. *)
Theorem coercions_agree_on_text (c : option string) :
  clean_num_strict
    (Some {| value_number := None; value_currency := None; content := c |})
  = clean_currency (match c with Some s => Val s | None => NaN end).
Proof.
  unfold clean_num_strict, clean_currency. cbn [value_number value_currency content].
  destruct c as [s | ]; cbn [isna cell_str str_of_content]; [ | reflexivity ].
  destruct (Str.sub_non_numeric s) as [ | ch r]; reflexivity.
Qed.

(* ================================================================= *)
(** ** The quantity read from the recognised text *)

Module QtyFacts.

Ltac each_char c := destruct c as [[] [] [] [] [] [] [] []].

Lemma lower_char_idempotent (c : ascii) :
  Str.lower_char (Str.lower_char c) = Str.lower_char c.
Proof. each_char c; reflexivity. Qed.

Lemma is_space_lower (c : ascii) : Str.is_space (Str.lower_char c) = Str.is_space c.
Proof. each_char c; reflexivity. Qed.

Lemma is_digit_lower (c : ascii) : Str.is_digit (Str.lower_char c) = Str.is_digit c.
Proof. each_char c; reflexivity. Qed.

Lemma digit_lower (c : ascii) : Str.is_digit c = true -> Str.lower_char c = c.
Proof. each_char c; intros H; (discriminate H || reflexivity). Qed.

Lemma mark_lower (c : ascii) :
  (Ascii.eqb (Str.lower_char c) ":" || Ascii.eqb (Str.lower_char c) "-")
  = (Ascii.eqb c ":" || Ascii.eqb c "-").
Proof. each_char c; reflexivity. Qed.

Lemma digit_is_plain (c : ascii) :
  Str.is_digit c = true ->
  Str.is_space c = false /\ Ascii.eqb c ":" = false /\ Ascii.eqb c "-" = false.
Proof. each_char c; intros H; (discriminate H || (repeat split)). Qed.

Lemma length_lower (s : string) : String.length (Str.lower s) = String.length s.
Proof. induction s as [ | c r IH]; simpl; [ | rewrite IH ]; reflexivity. Qed.

Lemma is_empty_lower (s : string) : Str.is_empty (Str.lower s) = Str.is_empty s.
Proof. destruct s; reflexivity. Qed.

Lemma lstrip_lower (s : string) : Str.lstrip (Str.lower s) = Str.lower (Str.lstrip s).
Proof.
  induction s as [ | c r IH]; simpl.
  - reflexivity.
  - rewrite is_space_lower. destruct (Str.is_space c); [ exact IH | reflexivity ].
Qed.

Lemma match_ci_lower (lit s : string) :
  Regex.match_ci lit (Str.lower s) = option_map Str.lower (Regex.match_ci lit s).
Proof.
  revert s. induction lit as [ | a lit IH]; intros s.
  - destruct s; reflexivity.
  - destruct s as [ | b s]; simpl; [ reflexivity | ].
    rewrite lower_char_idempotent.
    destruct (Ascii.eqb (Str.lower_char a) (Str.lower_char b)); [ apply IH | reflexivity ].
Qed.

Lemma skip_mark_lower (s : string) :
  Regex.skip_mark (Str.lower s) = Str.lower (Regex.skip_mark s).
Proof.
  destruct s as [ | c r]; simpl; [ reflexivity | ].
  rewrite mark_lower. destruct (Ascii.eqb c ":" || Ascii.eqb c "-"); reflexivity.
Qed.

Lemma take_digits_lower (s : string) :
  Regex.take_digits (Str.lower s) = Regex.take_digits s.
Proof.
  induction s as [ | c r IH]; simpl.
  - reflexivity.
  - rewrite is_digit_lower. destruct (Str.is_digit c) eqn:D; [ | reflexivity ].
    rewrite (digit_lower c D), IH. reflexivity.
Qed.

Lemma match_here_lower (w1 w2 s : string) :
  Regex.match_here w1 w2 (Str.lower s) = Regex.match_here w1 w2 s.
Proof.
  unfold Regex.match_here. rewrite match_ci_lower.
  destruct (Regex.match_ci w1 s) as [r1 | ]; simpl; [ | reflexivity ].
  rewrite lstrip_lower, !length_lower.
  destruct (String.length (Str.lstrip r1) =? String.length r1); [ reflexivity | ].
  rewrite match_ci_lower.
  destruct (Regex.match_ci w2 (Str.lstrip r1)) as [r3 | ]; simpl; [ | reflexivity ].
  rewrite lstrip_lower, skip_mark_lower, lstrip_lower, take_digits_lower. reflexivity.
Qed.

Lemma search_lower (w1 w2 s : string) :
  Regex.search w1 w2 (Str.lower s) = Regex.search w1 w2 s.
Proof.
  induction s as [ | c r IH].
  - reflexivity.
  - change (Str.lower (String c r)) with (String (Str.lower_char c) (Str.lower r)).
    cbn [Regex.search].
    change (String (Str.lower_char c) (Str.lower r)) with (Str.lower (String c r)).
    rewrite match_here_lower, IH. reflexivity.
Qed.

Lemma extract_lower (s : string) :
  extract_gross_total_qty (Str.lower s) = extract_gross_total_qty s.
Proof.
  unfold extract_gross_total_qty. rewrite is_empty_lower, !search_lower. reflexivity.
Qed.

(** What the search captures is a run of digits. *)
Lemma take_digits_all (s : string) : Str.all_digits (Regex.take_digits s) = true.
Proof.
  induction s as [ | c r IH]; simpl; [ reflexivity | ].
  destruct (Str.is_digit c) eqn:D; simpl; [ rewrite D; exact IH | reflexivity ].
Qed.

Lemma match_ci_has_digit (lit : string) :
  forall s r, Regex.match_ci lit s = Some r -> has_digit r = true -> has_digit s = true.
Proof.
  induction lit as [ | a lit IH]; intros s r H Hr.
  - destruct s; injection H as <-; exact Hr.
  - destruct s as [ | b s]; simpl in H; [ discriminate | ].
    destruct (Ascii.eqb (Str.lower_char a) (Str.lower_char b)); [ | discriminate ].
    simpl. rewrite (IH s r H Hr). apply orb_true_r.
Qed.

Lemma lstrip_has_digit (s : string) :
  has_digit (Str.lstrip s) = true -> has_digit s = true.
Proof.
  induction s as [ | c r IH]; simpl; intros H.
  - exact H.
  - destruct (Str.is_space c); [ rewrite (IH H); apply orb_true_r | exact H ].
Qed.

Lemma skip_mark_has_digit (s : string) :
  has_digit (Regex.skip_mark s) = true -> has_digit s = true.
Proof.
  destruct s as [ | c r]; simpl; intros H; [ exact H | ].
  destruct (Ascii.eqb c ":" || Ascii.eqb c "-"); [ rewrite H; apply orb_true_r | exact H ].
Qed.

Lemma take_digits_has_digit (s : string) :
  Str.is_empty (Regex.take_digits s) = false -> has_digit s = true.
Proof.
  destruct s as [ | c r]; simpl; intros H; [ discriminate | ].
  destruct (Str.is_digit c); [ reflexivity | discriminate ].
Qed.

Lemma match_here_captures (w1 w2 s d : string) :
  Regex.match_here w1 w2 s = Some d -> Str.all_digits d = true /\ has_digit s = true.
Proof.
  unfold Regex.match_here.
  destruct (Regex.match_ci w1 s) as [r1 | ] eqn:E1; [ | discriminate ].
  destruct (String.length (Str.lstrip r1) =? String.length r1); [ discriminate | ].
  destruct (Regex.match_ci w2 (Str.lstrip r1)) as [r3 | ] eqn:E3; [ | discriminate ].
  destruct (Str.is_empty (Regex.take_digits _)) eqn:Ed; [ discriminate | ].
  intros H. injection H as <-. split; [ apply take_digits_all | ].
  apply (match_ci_has_digit w1 s r1 E1), lstrip_has_digit.
  apply (match_ci_has_digit w2 _ r3 E3), lstrip_has_digit, skip_mark_has_digit,
    lstrip_has_digit, take_digits_has_digit, Ed.
Qed.

Lemma search_captures (w1 w2 s d : string) :
  Regex.search w1 w2 s = Some d -> Str.all_digits d = true /\ has_digit s = true.
Proof.
  induction s as [ | c r IH]; cbn [Regex.search].
  - destruct (Regex.match_here w1 w2 "") as [d' | ] eqn:E; [ | discriminate ].
    intros H. injection H as <-. exact (match_here_captures _ _ _ _ E).
  - destruct (Regex.match_here w1 w2 (String c r)) as [d' | ] eqn:E.
    + intros H. injection H as <-. exact (match_here_captures _ _ _ _ E).
    + intros H. destruct (IH H) as [H1 H2]. split; [ exact H1 | ].
      simpl. rewrite H2. apply orb_true_r.
Qed.

Lemma captured_value_signed (d : string) :
  Str.all_digits d = true -> Float.signed_as false (Float.decimal (Str.digits_value 0 d) 0).
Proof.
  intros H. apply FloatFacts.decimal_signed, CleanFacts.digits_value_nonneg; [ exact H | lia ].
Qed.

Lemma extract_signed (s : string) : Float.signed_as false (extract_gross_total_qty s).
Proof.
  unfold extract_gross_total_qty.
  destruct (Str.is_empty s); [ reflexivity | ].
  destruct (Regex.search "Gross" "Total" s) as [d | ] eqn:E1.
  - apply captured_value_signed, (search_captures _ _ _ _ E1).
  - destruct (Regex.search "Total" "Qty" s) as [d | ] eqn:E2; [ | reflexivity ].
    apply captured_value_signed, (search_captures _ _ _ _ E2).
Qed.

Lemma extract_without_digit (s : string) :
  has_digit s = false -> extract_gross_total_qty s = Float.zero.
Proof.
  intros H. unfold extract_gross_total_qty.
  destruct (Str.is_empty s); [ reflexivity | ].
  destruct (Regex.search "Gross" "Total" s) as [d | ] eqn:E1.
  - destruct (search_captures _ _ _ _ E1) as [_ H1]. congruence.
  - destruct (Regex.search "Total" "Qty" s) as [d | ] eqn:E2; [ | reflexivity ].
    destruct (search_captures _ _ _ _ E2) as [_ H1]. congruence.
Qed.

(** Reading a labelled quantity back. *)
Lemma length_append (a b : string) :
  String.length (a ++ b) = String.length a + String.length b.
Proof. induction a as [ | c r IH]; simpl; [ | rewrite IH ]; reflexivity. Qed.

Lemma lstrip_spaces (ws t : string) :
  all_space ws = true -> Str.lstrip (ws ++ t) = Str.lstrip t.
Proof.
  induction ws as [ | c r IH]; simpl; intros H; [ reflexivity | ].
  apply andb_true_iff in H as [Hc Hr]. rewrite Hc. apply IH, Hr.
Qed.

Lemma match_ci_same (lit t : string) : Regex.match_ci lit (lit ++ t) = Some t.
Proof.
  induction lit as [ | a lit IH]; simpl.
  - destruct t; reflexivity.
  - rewrite Ascii.eqb_refl. exact IH.
Qed.

Lemma take_digits_app (d rest : string) :
  Str.all_digits d = true -> starts_with_digit rest = false ->
  Regex.take_digits (d ++ rest) = d.
Proof.
  induction d as [ | c r IH]; simpl; intros Hd Hr.
  - destruct rest as [ | c r]; simpl in *; [ reflexivity | rewrite Hr; reflexivity ].
  - apply andb_true_iff in Hd as [Hc Hd]. rewrite Hc, (IH Hd Hr). reflexivity.
Qed.

(** After the label, blanks, an optional mark and blanks, the digits are
    what the pattern captures. *)
Lemma capture_after_label (ws2 mark ws3 d rest : string) :
  all_space ws2 = true -> all_space ws3 = true ->
  mark = "" \/ mark = ":" \/ mark = "-" ->
  Str.all_digits d = true -> Str.is_empty d = false ->
  starts_with_digit rest = false ->
  Regex.take_digits
    (Str.lstrip (Regex.skip_mark (Str.lstrip (ws2 ++ mark ++ ws3 ++ d ++ rest))))
  = d.
Proof.
  intros H2 H3 Hm Hd He Hr.
  destruct d as [ | c d']; [ discriminate | ].
  assert (Hc : Str.is_digit c = true) by (simpl in Hd; apply andb_true_iff in Hd; tauto).
  destruct (digit_is_plain c Hc) as [Hs [Hcolon Hdash]].
  assert (Hl : forall t, Str.lstrip (String c t) = String c t)
    by (intros t; simpl; rewrite Hs; reflexivity).
  assert (Hk : forall t, Regex.skip_mark (String c t) = String c t)
    by (intros t; simpl; rewrite Hcolon, Hdash; reflexivity).
  rewrite (lstrip_spaces ws2 _ H2).
  destruct Hm as [-> | [-> | ->]]; cbn [append Str.lstrip Str.is_space Regex.skip_mark].
  - rewrite (lstrip_spaces ws3 _ H3). cbn [append]. rewrite Hl, Hk, Hl.
    apply (take_digits_app (String c d') rest Hd Hr).
  - simpl. rewrite (lstrip_spaces ws3 _ H3). cbn [append]. rewrite Hl.
    apply (take_digits_app (String c d') rest Hd Hr).
  - simpl. rewrite (lstrip_spaces ws3 _ H3). cbn [append]. rewrite Hl.
    apply (take_digits_app (String c d') rest Hd Hr).
Qed.

End QtyFacts.

(** X7.  The quantity read from the recognised text is never negative
    and never a NaN, and a text without any digit gives [0.0]. *)
Theorem gross_quantity_is_never_negative :
  (forall s : string, Float.nonneg (extract_gross_total_qty s) = true)
  /\ (forall s : string, has_digit s = false -> extract_gross_total_qty s = Float.zero).
Proof.
  split.
  - intros s. pose proof (QtyFacts.extract_signed s) as H.
    apply FloatFacts.signed_as_false in H as [H1 H2].
    apply FloatFacts.sign_clear_nonneg; assumption.
  - exact QtyFacts.extract_without_digit.
Qed.

Lemma gross_quantity_is_never_negative_witness :
  extract_gross_total_qty "Gross Total : n/a" = Float.zero.
Proof.
  apply (proj2 gross_quantity_is_never_negative). reflexivity.
Defined.

(** X8.  The search for the quantity ignores letter case: two texts that
    differ only in the case of their letters give the same quantity. *)
Theorem gross_quantity_ignores_case (s1 s2 : string) :
  Str.lower s1 = Str.lower s2 ->
  extract_gross_total_qty s1 = extract_gross_total_qty s2.
Proof.
  intros H. rewrite <- (QtyFacts.extract_lower s1), <- (QtyFacts.extract_lower s2), H.
  reflexivity.
Qed.

Lemma gross_quantity_ignores_case_witness :
  extract_gross_total_qty "GROSS TOTAL: 125" = extract_gross_total_qty "Gross total: 125".
Proof.
  apply (gross_quantity_ignores_case "GROSS TOTAL: 125" "Gross total: 125").
  reflexivity.
Defined.

(** X9.  A text that starts with the label ["Gross"], blanks, ["Total"],
    then optional blanks, an optional colon or dash, optional blanks and
    a run of digits gives the number those digits write, whatever comes
    after the digits. *)
Theorem gross_quantity_reads_labelled_digits (ws1 ws2 mark ws3 d rest : string) :
  all_space ws1 = true -> Str.is_empty ws1 = false ->
  all_space ws2 = true -> all_space ws3 = true ->
  mark = "" \/ mark = ":" \/ mark = "-" ->
  Str.all_digits d = true -> Str.is_empty d = false ->
  starts_with_digit rest = false ->
  extract_gross_total_qty ("Gross" ++ ws1 ++ "Total" ++ ws2 ++ mark ++ ws3 ++ d ++ rest)
  = Float.decimal (Str.digits_value 0 d) 0.
Proof.
  intros H1 E1 H2 H3 Hm Hd Ed Hr.
  unfold extract_gross_total_qty.
  set (tail := ws2 ++ mark ++ ws3 ++ d ++ rest).
  assert (Hhere : Regex.match_here "Gross" "Total" ("Gross" ++ ws1 ++ "Total" ++ tail)
                  = Some d).
  { unfold Regex.match_here. rewrite QtyFacts.match_ci_same.
    rewrite (QtyFacts.lstrip_spaces ws1 _ H1).
    assert (Hl : Str.lstrip ("Total" ++ tail) = "Total" ++ tail) by reflexivity.
    rewrite Hl.
    assert (Hlen : (String.length ("Total" ++ tail)
                    =? String.length (ws1 ++ "Total" ++ tail)) = false).
    { apply Nat.eqb_neq. rewrite (QtyFacts.length_append ws1).
      destruct ws1; [ discriminate | simpl; lia ]. }
    rewrite Hlen, QtyFacts.match_ci_same. unfold tail.
    rewrite (QtyFacts.capture_after_label ws2 mark ws3 d rest H2 H3 Hm Hd Ed Hr), Ed.
    reflexivity. }
  assert (Hsearch : Regex.search "Gross" "Total" ("Gross" ++ ws1 ++ "Total" ++ tail)
                    = Some d).
  { change ("Gross" ++ ws1 ++ "Total" ++ tail)
      with (String "G" ("ross" ++ ws1 ++ "Total" ++ tail)) in *.
    cbn [Regex.search]. rewrite Hhere. reflexivity. }
  rewrite Hsearch. reflexivity.
Qed.

Lemma gross_quantity_reads_labelled_digits_witness :
  extract_gross_total_qty "Gross  Total : 125 pcs" = Float.of_int 125.
Proof.
  apply (gross_quantity_reads_labelled_digits "  " " " ":" " " "125" " pcs");
    try reflexivity.
  right. left. reflexivity.
Defined.

(* ================================================================= *)
(** ** The frame of line items *)

Module FrameFacts.

Lemma eqb_sym (x y : float) : Float.eqb x y = Float.eqb y x.
Proof.
  unfold Float.eqb, SFeqb. rewrite (FloatFacts.compare_antisym x y).
  destruct (SFcompare x y) as [[ | | ] | ]; reflexivity.
Qed.

Lemma same_value_sym (x y : float) : same_value x y = same_value y x.
Proof. unfold same_value. rewrite eqb_sym, andb_comm. reflexivity. Qed.

Lemma same_value_refl (x : float) : same_value x x = true.
Proof.
  unfold same_value. destruct (Float.is_nan x) eqn:E; [ reflexivity | ].
  unfold Float.eqb, SFeqb. rewrite (FloatFacts.compare_refl x E). reflexivity.
Qed.

Lemma same_item_sym (a b : LineItem) : same_item a b = same_item b a.
Proof. unfold same_item. rewrite String.eqb_sym, same_value_sym. reflexivity. Qed.

Lemma same_item_refl (a : LineItem) : same_item a a = true.
Proof. unfold same_item. rewrite String.eqb_refl, same_value_refl. reflexivity. Qed.

(** A row that is kept equals none of the rows seen before. *)
Lemma kept_not_seen (l : list LineItem) :
  forall seen y, In y (drop_duplicates_from seen l) -> existsb (same_item y) seen = false.
Proof.
  induction l as [ | x l IH]; simpl; intros seen y H.
  - contradiction.
  - destruct (existsb (same_item x) seen) eqn:E.
    + apply IH, H.
    + destruct H as [<- | H]; [ exact E | ].
      specialize (IH _ _ H). simpl in IH. apply orb_false_iff in IH. tauto.
Qed.

Lemma kept_pairwise_different (l : list LineItem) :
  forall seen,
    ForallOrdPairs (fun a b => same_item a b = false) (drop_duplicates_from seen l).
Proof.
  induction l as [ | x l IH]; simpl; intros seen.
  - constructor.
  - destruct (existsb (same_item x) seen); [ apply IH | ].
    constructor; [ | apply IH ].
    apply Forall_forall. intros y Hy.
    pose proof (kept_not_seen l _ y Hy) as H. simpl in H.
    apply orb_false_iff in H as [H _]. rewrite same_item_sym. exact H.
Qed.

(** Every row has an equal row among those seen or kept. *)
Lemma every_row_represented (l : list LineItem) :
  forall seen x, In x l ->
    exists y, In y (seen ++ drop_duplicates_from seen l)%list /\ same_item x y = true.
Proof.
  induction l as [ | h l IH]; simpl; intros seen x H.
  - contradiction.
  - destruct (existsb (same_item h) seen) eqn:E.
    + destruct H as [<- | H]; [ | apply IH, H ].
      apply existsb_exists in E as [y [Hy Hs]].
      exists y. split; [ apply in_or_app; left; exact Hy | exact Hs ].
    + destruct H as [<- | H].
      * exists h. split; [ apply in_or_app; right; left; reflexivity | apply same_item_refl ].
      * destruct (IH (h :: seen) x H) as [y [Hy Hs]].
        exists y. split; [ | exact Hs ].
        apply in_app_or in Hy as [[<- | Hy] | Hy]; apply in_or_app.
        -- right. left. reflexivity.
        -- left. exact Hy.
        -- right. right. exact Hy.
Qed.

Lemma for_each_app {S A : Type} (body : S -> A -> result S) (l1 l2 : list A) (s : S) :
  for_each body (l1 ++ l2)%list s = (s1 <- for_each body l1 s ;; for_each body l2 s1).
Proof.
  revert s. induction l1 as [ | a l1 IH]; simpl; intros s.
  - reflexivity.
  - destruct (body s a) as [s' | e]; simpl; [ apply IH | reflexivity ].
Qed.

(** A loop whose body only ever appends returns a list that extends the
    one it started from. *)
Lemma for_each_extends {A B : Type} (body : list B -> A -> result (list B)) :
  (forall acc a acc', body acc a = Ok acc' -> exists extra, acc' = (acc ++ extra)%list) ->
  forall l acc acc', for_each body l acc = Ok acc' ->
    exists extra, acc' = (acc ++ extra)%list.
Proof.
  intros Hbody. induction l as [ | a l IH]; simpl; intros acc acc' H.
  - injection H as <-. exists []. rewrite app_nil_r. reflexivity.
  - destruct (body acc a) as [acc1 | e] eqn:E; simpl in H; [ | discriminate ].
    destruct (Hbody _ _ _ E) as [x1 ->]. destruct (IH _ _ H) as [x2 ->].
    exists (x1 ++ x2)%list. rewrite app_assoc. reflexivity.
Qed.

Lemma visit_item_extends (codes : list string) (acc : list LineItem) (item : ItemObject)
  (acc' : list LineItem) :
  visit_item codes acc item = Ok acc' -> exists extra, acc' = (acc ++ extra)%list.
Proof.
  assert (Hsame : Ok acc = Ok acc' -> exists extra, acc' = (acc ++ extra)%list).
  { intros H. injection H as <-. exists []. rewrite app_nil_r. reflexivity. }
  unfold visit_item.
  destruct (ProductCode item) as [p | ]; [ | exact Hsame ].
  destruct (content p) as [c | ]; [ | exact Hsame ].
  destruct (Str.is_empty c); [ exact Hsame | ].
  destruct (clean_num_strict (Amount item)) as [amt | e]; simpl; [ | discriminate ].
  destruct (negb (code_in (Str.strip c) codes)); [ exact Hsame | ].
  destruct (Str.contains "total" (Str.lower (Str.strip c)) || Float.eqb amt Float.zero);
    [ exact Hsame | ].
  intros H. injection H as <-. eexists. reflexivity.
Qed.

(** An item that passes every test is appended. *)
Lemma visit_item_appends (codes : list string) (acc : list LineItem) (item : ItemObject)
  (p : DocumentField) (c : string) (amt : float) :
  ProductCode item = Some p -> content p = Some c -> Str.is_empty c = false ->
  In (Str.strip c) codes ->
  Str.contains "total" (Str.lower (Str.strip c)) = false ->
  clean_num_strict (Amount item) = Ok amt -> Float.eqb amt Float.zero = false ->
  visit_item codes acc item
  = Ok (acc ++ [{| Material_Code_PDF := Str.strip c; Total_PDF := amt |}])%list.
Proof.
  intros Hp Hc He Hin Ht Ha Hz. unfold visit_item.
  rewrite Hp, Hc, He, Ha. cbn [bind].
  apply ExtractFacts.code_in_iff in Hin. rewrite Hin, Ht, Hz. reflexivity.
Qed.

(** The items of one array: the loop keeps what it had and, for an item
    of the array that passes every test, holds its line item at the end. *)
Lemma items_loop_holds (codes : list string) (arr : list ItemObject) (item : ItemObject)
  (p : DocumentField) (c : string) (amt : float) (acc acc' : list LineItem) :
  In item arr ->
  ProductCode item = Some p -> content p = Some c -> Str.is_empty c = false ->
  In (Str.strip c) codes ->
  Str.contains "total" (Str.lower (Str.strip c)) = false ->
  clean_num_strict (Amount item) = Ok amt -> Float.eqb amt Float.zero = false ->
  for_each (visit_item codes) arr acc = Ok acc' ->
  In {| Material_Code_PDF := Str.strip c; Total_PDF := amt |} acc'.
Proof.
  intros Hin Hp Hc He Hcode Ht Ha Hz Hrun.
  apply in_split in Hin as [l1 [l2 ->]].
  rewrite for_each_app in Hrun.
  destruct (for_each (visit_item codes) l1 acc) as [acc1 | e]; [ | discriminate ].
  cbn [bind for_each] in Hrun.
  rewrite (visit_item_appends codes acc1 item p c amt Hp Hc He Hcode Ht Ha Hz) in Hrun.
  cbn [bind] in Hrun.
  destruct (for_each_extends (visit_item codes) (visit_item_extends codes) _ _ _ Hrun)
    as [extra ->].
  apply in_or_app. left. apply in_or_app. right. left. reflexivity.
Qed.

Lemma visit_invoice_extends (codes : list string) (st st' : list LineItem * Summary)
  (invoice : Invoice) :
  visit_invoice codes st invoice = Ok st' ->
  exists extra, fst st' = (fst st ++ extra)%list.
Proof.
  destruct st as [acc summary]. unfold visit_invoice.
  destruct (match Items invoice with
            | Some (i :: arr) => for_each (visit_item codes) (i :: arr) acc
            | _ => Ok acc
            end) as [acc1 | e] eqn:E; cbn [bind]; [ | discriminate ].
  assert (Hext : exists extra, acc1 = (acc ++ extra)%list).
  { destruct (Items invoice) as [[ | i arr] | ].
    - injection E as <-. exists []. rewrite app_nil_r. reflexivity.
    - exact (for_each_extends (visit_item codes) (visit_item_extends codes) _ _ _ E).
    - injection E as <-. exists []. rewrite app_nil_r. reflexivity. }
  destruct (clean_num_strict (TotalTax invoice)) as [tax | e]; cbn [bind]; [ | discriminate ].
  destruct (clean_num_strict (InvoiceTotal invoice)) as [tot | e]; cbn [bind];
    [ | discriminate ].
  intros H. injection H as <-. exact Hext.
Qed.

Lemma documents_loop_extends (codes : list string) (docs : list Invoice) :
  forall st st', for_each (visit_invoice codes) docs st = Ok st' ->
    exists extra, fst st' = (fst st ++ extra)%list.
Proof.
  induction docs as [ | d docs IH]; simpl; intros st st' H.
  - injection H as <-. exists []. rewrite app_nil_r. reflexivity.
  - destruct (visit_invoice codes st d) as [st1 | e] eqn:E; simpl in H; [ | discriminate ].
    destruct (visit_invoice_extends codes st st1 d E) as [x1 H1].
    destruct (IH _ _ H) as [x2 H2].
    exists (x1 ++ x2)%list. rewrite H2, H1, app_assoc. reflexivity.
Qed.

(** The footers after a loop that ends with the document [last]. *)
Lemma visit_invoice_footers (codes : list string) (st st' : list LineItem * Summary)
  (invoice : Invoice) :
  visit_invoice codes st invoice = Ok st' ->
  clean_num_strict (TotalTax invoice) = Ok (Total_Tax_Footer (snd st'))
  /\ clean_num_strict (InvoiceTotal invoice) = Ok (Grand_Total_Footer (snd st')).
Proof.
  destruct st as [acc summary]. unfold visit_invoice.
  destruct (match Items invoice with
            | Some (i :: arr) => for_each (visit_item codes) (i :: arr) acc
            | _ => Ok acc
            end) as [acc1 | e]; cbn [bind]; [ | discriminate ].
  destruct (clean_num_strict (TotalTax invoice)) as [tax | e]; cbn [bind]; [ | discriminate ].
  destruct (clean_num_strict (InvoiceTotal invoice)) as [tot | e]; cbn [bind];
    [ | discriminate ].
  intros H. injection H as <-. split; reflexivity.
Qed.

End FrameFacts.

Module FrameShape.

(** [extract_pdf_data] returns the line items of the loop without their
    repetitions, the quantity of the text and the footers of the loop. *)
Lemma extract_pdf_data_shape (analysis : AnalyzeResult) (codes : list string) :
  exists all summary',
    for_each (visit_invoice codes) (documents analysis) ([], summary0) = Ok (all, summary')
    /\ extract_pdf_data analysis codes
       = Ok (drop_duplicates all,
             {| Gross_Total_Qty := extract_gross_total_qty (full_text analysis);
                Total_Tax_Footer := Total_Tax_Footer summary';
                Grand_Total_Footer := Grand_Total_Footer summary' |}).
Proof.
  destruct (ExtractFacts.for_each_invariant (visit_invoice codes)
              (fun st => Forall (passes_tests codes) (fst st))
              (fun s a => ExtractFacts.visit_invoice_keeps codes s a)
              (documents analysis) ([], summary0) (Forall_nil _))
    as [[all summary'] [H _]].
  exists all, summary'. split; [ exact H | ].
  unfold extract_pdf_data. fold summary0. rewrite H. reflexivity.
Qed.

End FrameShape.

(** X10.  The frame of line items has no two rows with the same code and
    the same amount.  [drop_duplicates] removes rows only, and every row
    it removes equals a row it keeps. *)
Theorem line_item_frame_has_no_repeated_row :
  (forall (analysis : AnalyzeResult) (codes : list string),
      exists items summary,
        extract_pdf_data analysis codes = Ok (items, summary)
        /\ ForallOrdPairs (fun a b => same_item a b = false) items)
  /\ (forall (l : list LineItem) (x : LineItem),
         In x (drop_duplicates l) -> In x l)
  /\ (forall (l : list LineItem) (x : LineItem),
         In x l -> exists y, In y (drop_duplicates l) /\ same_item x y = true).
Proof.
  split; [ | split ].
  - intros analysis codes.
    destruct (FrameShape.extract_pdf_data_shape analysis codes) as [all [s' [_ H]]].
    do 2 eexists. split; [ exact H | ].
    apply FrameFacts.kept_pairwise_different.
  - intros l x. apply ExtractFacts.drop_duplicates_from_incl.
  - intros l x H. exact (FrameFacts.every_row_represented l [] x H).
Qed.

Lemma line_item_frame_has_no_repeated_row_witness :
  exists y, In y (drop_duplicates (one_item_a1 ++ [item_b2] ++ one_item_a1)%list)
            /\ same_item item_b2 y = true.
Proof.
  apply (proj2 (proj2 line_item_frame_has_no_repeated_row)).
  right. left. reflexivity.
Defined.

(** X11.  A candidate of any document is not lost: when its code text is
    not empty, its stripped code is a spreadsheet code without ["total"]
    in it and its coerced amount is not zero, the frame
    [extract_pdf_data] returns has a row with that code and that amount. *)
Theorem passing_item_is_emitted
  (analysis : AnalyzeResult) (codes : list string) (invoice : Invoice)
  (arr : list ItemObject) (item : ItemObject) (p : DocumentField) (c : string)
  (amt : float) :
  In invoice (documents analysis) ->
  Items invoice = Some arr -> In item arr ->
  ProductCode item = Some p -> content p = Some c -> Str.is_empty c = false ->
  In (Str.strip c) codes ->
  Str.contains "total" (Str.lower (Str.strip c)) = false ->
  clean_num_strict (Amount item) = Ok amt -> Float.eqb amt Float.zero = false ->
  exists items summary,
    extract_pdf_data analysis codes = Ok (items, summary)
    /\ exists it, In it items
                  /\ Material_Code_PDF it = Str.strip c
                  /\ same_value amt (Total_PDF it) = true.
Proof.
  intros Hinv Harr Hitem Hp Hc He Hcode Ht Ha Hz.
  destruct (FrameShape.extract_pdf_data_shape analysis codes) as [all [s' [Hloop H]]].
  do 2 eexists. split; [ exact H | ].
  assert (Hall : In {| Material_Code_PDF := Str.strip c; Total_PDF := amt |} all).
  { apply in_split in Hinv as [d1 [d2 Hd]]. rewrite Hd in Hloop.
    rewrite FrameFacts.for_each_app in Hloop.
    destruct (for_each (visit_invoice codes) d1 ([], summary0))
      as [[acc1 sum1] | e]; [ | discriminate ].
    cbn [bind for_each] in Hloop.
    destruct (visit_invoice codes (acc1, sum1) invoice) as [[acc2 sum2] | e] eqn:E;
      cbn [bind] in Hloop; [ | discriminate ].
    assert (H2 : In {| Material_Code_PDF := Str.strip c; Total_PDF := amt |} acc2).
    { unfold visit_invoice in E. rewrite Harr in E.
      destruct arr as [ | i arr']; [ contradiction | ].
      destruct (for_each (visit_item codes) (i :: arr') acc1) as [acc1' | e] eqn:E1;
        cbn [bind] in E; [ | discriminate ].
      destruct (clean_num_strict (TotalTax invoice)); cbn [bind] in E; [ | discriminate ].
      destruct (clean_num_strict (InvoiceTotal invoice)); cbn [bind] in E;
        [ | discriminate ].
      injection E as <- _.
      exact (FrameFacts.items_loop_holds codes (i :: arr') item p c amt acc1 acc1'
               Hitem Hp Hc He Hcode Ht Ha Hz E1). }
    destruct (FrameFacts.documents_loop_extends codes d2 _ _ Hloop) as [extra Hx].
    simpl in Hx. rewrite Hx. apply in_or_app. left. exact H2. }
  destruct (FrameFacts.every_row_represented all [] _ Hall) as [y [Hy Hs]].
  exists y. split; [ exact Hy | ].
  unfold same_item in Hs. apply andb_true_iff in Hs as [Hs1 Hs2]. simpl in Hs1, Hs2.
  apply String.eqb_eq in Hs1. split; [ symmetry; exact Hs1 | exact Hs2 ].
Qed.

Lemma passing_item_is_emitted_witness :
  exists items summary,
    extract_pdf_data (analysis_scenario "110.00") ["A1"] = Ok (items, summary)
    /\ exists it, In it items
                  /\ Material_Code_PDF it = "A1"
                  /\ same_value (Float.of_int 110) (Total_PDF it) = true.
Proof.
  apply (passing_item_is_emitted (analysis_scenario "110.00") ["A1"]
           {| Items := Some [ {| ProductCode := text_field " A1";
                                 Amount := text_field "110.00" |};
                              {| ProductCode := text_field "HSN9999";
                                 Amount := text_field "110.00" |} ];
              TotalTax := text_field "10.00";
              InvoiceTotal := text_field "110.00" |}
           [ {| ProductCode := text_field " A1"; Amount := text_field "110.00" |};
             {| ProductCode := text_field "HSN9999"; Amount := text_field "110.00" |} ]
           {| ProductCode := text_field " A1"; Amount := text_field "110.00" |}
           {| value_number := None; value_currency := None; content := Some " A1" |}
           " A1" (Float.of_int 110));
    try reflexivity; left; reflexivity.
Defined.

(** X12.  The footers of the summary are those of the last document:
    its total tax and its invoice total, each through [clean_num_strict];
    with no document at all both are [0.0].  The quantity comes from the
    recognised text alone. *)
Theorem last_document_sets_the_footers :
  (forall (text : string) (docs : list Invoice) (last : Invoice) (codes : list string),
      exists items summary,
        extract_pdf_data {| full_text := text; documents := docs ++ [last] |} codes
        = Ok (items, summary)
        /\ clean_num_strict (TotalTax last) = Ok (Total_Tax_Footer summary)
        /\ clean_num_strict (InvoiceTotal last) = Ok (Grand_Total_Footer summary)
        /\ Gross_Total_Qty summary = extract_gross_total_qty text)
  /\ (forall (text : string) (codes : list string),
         extract_pdf_data {| full_text := text; documents := [] |} codes
         = Ok ([], {| Gross_Total_Qty := extract_gross_total_qty text;
                      Total_Tax_Footer := Float.zero;
                      Grand_Total_Footer := Float.zero |})).
Proof.
  split; [ | reflexivity ].
  intros text docs last codes.
  destruct (FrameShape.extract_pdf_data_shape
              {| full_text := text; documents := docs ++ [last] |} codes)
    as [all [s' [Hloop H]]].
  do 2 eexists. split; [ exact H | ].
  cbn [documents] in Hloop. rewrite FrameFacts.for_each_app in Hloop.
  destruct (for_each (visit_invoice codes) docs ([], summary0)) as [st1 | e];
    [ | discriminate ].
  cbn [bind for_each] in Hloop.
  destruct (visit_invoice codes st1 last) as [st2 | e] eqn:E; cbn [bind] in Hloop;
    [ | discriminate ].
  injection Hloop as ->.
  destruct (FrameFacts.visit_invoice_footers codes st1 _ last E) as [H1 H2].
  simpl in H1, H2. repeat split; assumption.
Qed.

(* ================================================================= *)
(** ** Tolerance and accuracy *)

Module OrderFacts.

Ltac cases_of_compare :=
  repeat match goal with
         | H : context [Pos.compare_cont Eq ?x ?y] |- _ =>
             change (Pos.compare_cont Eq x y) with (Pos.compare x y) in H
         | |- context [Pos.compare_cont Eq ?x ?y] =>
             change (Pos.compare_cont Eq x y) with (Pos.compare x y)
         end;
  repeat match goal with
         | H : context [(?x ?= ?y)%Z] |- _ => destruct (Z.compare_spec x y)
         | |- context [(?x ?= ?y)%Z] => destruct (Z.compare_spec x y)
         | H : context [(?x ?= ?y)%positive] |- _ => destruct (Pos.compare_spec x y)
         | |- context [(?x ?= ?y)%positive] => destruct (Pos.compare_spec x y)
         end.

(** [<=] on floats is transitive. *)
Lemma leb_trans (a b c : float) :
  Float.leb a b = true -> Float.leb b c = true -> Float.leb a c = true.
Proof.
  unfold Float.leb, SFleb.
  destruct a as [sa | sa | | sa ma ea], b as [sb | sb | | sb mb eb],
    c as [sc | sc | | sc mc ec]; simpl;
    try discriminate; try reflexivity;
    try destruct sa; try destruct sb; try destruct sc; simpl;
    try discriminate; try reflexivity;
    intros H1 H2; cases_of_compare; simpl in *;
    try discriminate; try reflexivity; subst; try lia.
Qed.

Lemma item_status_grows (p e t t' : float) :
  Float.leb t t' = true -> item_status p e t = Match -> item_status p e t' = Match.
Proof.
  intros Ht H. apply StatusFacts.status_match in H. apply StatusFacts.status_match.
  exact (leb_trans _ _ _ H Ht).
Qed.

Lemma comp_rows_grow (t t' : float) (merged : list (string * float * float)) :
  Float.leb t t' = true ->
  map (fun r => (Code r, PDF r, EXCEL r)) (map (comp_row t') merged)
  = map (fun r => (Code r, PDF r, EXCEL r)) (map (comp_row t) merged)
  /\ Forall2 (fun r r' => Status r = Match -> Status r' = Match)
       (map (comp_row t) merged) (map (comp_row t') merged)
  /\ match_count (map (comp_row t) merged) <= match_count (map (comp_row t') merged).
Proof.
  intros Ht. unfold match_count.
  induction merged as [ | [[k p] e] merged [IH1 [IH2 IH3]]]; simpl.
  - split; [ reflexivity | split; [ constructor | lia ] ].
  - split; [ rewrite IH1; reflexivity | ].
    split; [ constructor; [ apply item_status_grows, Ht | exact IH2 ] | ].
    destruct (item_status (fillna0 p) (fillna0 e) t) eqn:E; simpl.
    + rewrite (item_status_grows _ _ t t' Ht E). simpl. lia.
    + destruct (item_status (fillna0 p) (fillna0 e) t'); simpl; lia.
Qed.

(** A positive integer divided by itself is one. *)
Lemma div_by_itself (n : positive) :
  Float.div (Float.exact_int (Zpos n)) (Float.exact_int (Zpos n))
  = S754_finite false 4503599627370496 (-52).
Proof.
  unfold Float.div, Float.exact_int, SFdiv, SFdiv_core_binary.
  replace (Zdigits2 (Zpos n) + 0 - (Zdigits2 (Zpos n) + 0))%Z with 0%Z by lia.
  change (Z.min (fexp Float.prec Float.emax 0) (0 - 0)) with (-53)%Z.
  change (0 - 0 - -53)%Z with 53%Z. cbv iota.
  destruct (Z.div_eucl (Z.shiftl (Zpos n) 53) (Zpos n)) as [q r] eqn:E.
  assert (Hq : q = 9007199254740992%Z).
  { change q with (fst (q, r)). rewrite <- E.
    change (fst (Z.div_eucl (Z.shiftl (Zpos n) 53) (Zpos n)))
      with (Z.shiftl (Zpos n) 53 / Zpos n)%Z.
    rewrite Z.shiftl_mul_pow2 by lia. rewrite Z.mul_comm.
    rewrite Z.div_mul by lia. reflexivity. }
  assert (Hr : r = 0%Z).
  { change r with (snd (q, r)). rewrite <- E.
    change (snd (Z.div_eucl (Z.shiftl (Zpos n) 53) (Zpos n)))
      with (Z.shiftl (Zpos n) 53 mod Zpos n)%Z.
    rewrite Z.shiftl_mul_pow2 by lia. rewrite Z.mul_comm.
    apply Z.mod_mul. lia. }
  subst q r.
  assert (Hl : new_location (Zpos n) 0 = loc_Exact).
  { unfold new_location. destruct (Z.even (Zpos n)); reflexivity. }
  rewrite Hl. reflexivity.
Qed.

Lemma all_match_count (rows : list CompRow) :
  Forall (fun x => Status x = Match) rows -> match_count rows = List.length rows.
Proof.
  unfold match_count. induction 1 as [ | x rows Hx _ IH]; simpl.
  - reflexivity.
  - rewrite Hx. simpl. rewrite IH. reflexivity.
Qed.

Lemma no_match_count (rows : list CompRow) :
  Forall (fun x => Status x = Mismatch) rows -> match_count rows = 0.
Proof.
  unfold match_count. induction 1 as [ | x rows Hx _ IH]; simpl.
  - reflexivity.
  - rewrite Hx. simpl. exact IH.
Qed.

(** The accuracy has a clear sign bit and is no NaN. *)
Lemma times_hundred_signed (x : float) :
  Float.signed_as false x -> Float.signed_as false (Float.mul x (Float.of_int 100)).
Proof.
  destruct x as [s | s | | s m e]; simpl; intros H; try contradiction; subst.
  - reflexivity.
  - reflexivity.
  - apply (FloatFacts.binary_round_aux_signed (xorb false false)). lia.
Qed.

Lemma accuracy_signed (r : CompRow) (rows : list CompRow) :
  exists acc, overall_accuracy (r :: rows) = Ok acc /\ Float.signed_as false acc.
Proof.
  unfold overall_accuracy, Float.int_truediv.
  change (List.length (r :: rows)) with (S (List.length rows)).
  rewrite Nat2Z.inj_succ.
  destruct (Z.succ (Z.of_nat (List.length rows))) as [ | n | n] eqn:E; try lia.
  cbn [Z.eqb bind]. eexists. split; [ reflexivity | ].
  apply times_hundred_signed, FloatFacts.div_exact_signed; lia.
Qed.

End OrderFacts.

(** X13.  A larger tolerance never turns a Match into a Mismatch.  With
    [tolerance <= tolerance'], the comparison rows at [tolerance'] have
    the codes and amounts of those at [tolerance], every Match is still
    a Match, and there are at least as many of them; the same holds for
    the three rows of the grand totals. *)
Theorem larger_tolerance_keeps_matches (tolerance tolerance' : float) :
  Float.leb tolerance tolerance' = true ->
  (forall (pdf_df : list LineItem) (excel_df : list ExcelRow) (rows : list CompRow),
      merge_and_compare pdf_df excel_df tolerance = Ok rows ->
      exists rows',
        merge_and_compare pdf_df excel_df tolerance' = Ok rows'
        /\ map (fun r => (Code r, PDF r, EXCEL r)) rows'
           = map (fun r => (Code r, PDF r, EXCEL r)) rows
        /\ Forall2 (fun r r' => Status r = Match -> Status r' = Match) rows rows'
        /\ match_count rows <= match_count rows')
  /\ (forall (series_sum : list float -> float) (pdf_summary : Summary)
             (excel_df : list ExcelRow),
         Forall2 (fun q q' => Metric q' = Metric q
                              /\ Difference q' = Difference q
                              /\ (Summary_Status q = Match -> Summary_Status q' = Match))
           (summary_results series_sum pdf_summary excel_df tolerance)
           (summary_results series_sum pdf_summary excel_df tolerance')).
Proof.
  intros Ht. split.
  - intros pdf_df excel_df rows. unfold merge_and_compare.
    destruct (merge_outer pdf_df (right_frame excel_df)) as [merged | e]; cbn [bind];
      [ | discriminate ].
    intros H. injection H as <-. eexists. split; [ reflexivity | ].
    apply OrderFacts.comp_rows_grow, Ht.
  - intros series_sum pdf_summary excel_df. unfold summary_results.
    repeat constructor; simpl.
    + exact (fun H => H).
    + destruct (Float.leb _ tolerance) eqn:E; [ | discriminate ].
      rewrite (OrderFacts.leb_trans _ _ _ E Ht). reflexivity.
    + destruct (Float.leb _ tolerance) eqn:E; [ | discriminate ].
      rewrite (OrderFacts.leb_trans _ _ _ E Ht). reflexivity.
Qed.

Lemma larger_tolerance_keeps_matches_witness :
  exists rows',
    merge_and_compare one_item_a1 line_a1_100 (Float.of_int 50) = Ok rows'
    /\ match_count [row_a1_110_100] <= match_count rows'.
Proof.
  destruct (proj1 (larger_tolerance_keeps_matches float_10 (Float.of_int 50) eq_refl)
              one_item_a1 line_a1_100 [row_a1_110_100] eq_refl)
    as [rows' [H1 [_ [_ H2]]]].
  exists rows'. split; assumption.
Defined.

(** X14.  When every comparison row is a Match the accuracy is exactly
    100, and when every row is a Mismatch it is exactly 0, however many
    rows there are; on one row or more the accuracy is never negative
    and never a NaN. *)
Theorem accuracy_at_the_ends (r : CompRow) (rows : list CompRow) :
  (Forall (fun x => Status x = Match) (r :: rows) ->
   overall_accuracy (r :: rows) = Ok (Float.of_int 100))
  /\ (Forall (fun x => Status x = Mismatch) (r :: rows) ->
      overall_accuracy (r :: rows) = Ok Float.zero)
  /\ (exists acc, overall_accuracy (r :: rows) = Ok acc /\ Float.nonneg acc = true).
Proof.
  split; [ | split ]; [ intros H; unfold overall_accuracy | intros H; unfold overall_accuracy | ].
  3: { destruct (OrderFacts.accuracy_signed r rows) as [acc [H1 H2]].
       exists acc. split; [ exact H1 | ].
       apply FloatFacts.signed_as_false in H2 as [H2 H3].
       apply FloatFacts.sign_clear_nonneg; assumption. }
  - pose proof (OrderFacts.all_match_count _ H) as Hc. unfold match_count in Hc.
    rewrite Hc. unfold Float.int_truediv.
    change (List.length (r :: rows)) with (S (List.length rows)).
    rewrite Nat2Z.inj_succ.
    destruct (Z.succ (Z.of_nat (List.length rows))) as [ | n | n] eqn:E; try lia.
    cbn [Z.eqb bind]. rewrite OrderFacts.div_by_itself. reflexivity.
  - pose proof (OrderFacts.no_match_count _ H) as Hc. unfold match_count in Hc.
    rewrite Hc. unfold Float.int_truediv.
    change (List.length (r :: rows)) with (S (List.length rows)).
    rewrite Nat2Z.inj_succ.
    destruct (Z.succ (Z.of_nat (List.length rows))) as [ | n | n] eqn:E; try lia.
    reflexivity.
Qed.

Lemma accuracy_at_the_ends_witness :
  overall_accuracy [row_a1_110_100; row_a1_110_100; row_a1_110_100]
  = Ok (Float.of_int 100).
Proof.
  apply (proj1 (accuracy_at_the_ends row_a1_110_100 [row_a1_110_100; row_a1_110_100])).
  repeat constructor.
Defined.

(* ================================================================= *)
(** ** The whole run *)

Module RunFacts.



(** A row of the join for [k] whose left rows all have a right row of the
    same key takes its third number from a right row of the key [k]. *)
Lemma join_at_right_side (left : list LineItem) (right : list (string * float))
  (k : string) (x : string * float * float) :
  (forall l, In l left -> exists r, In r right /\ fst r = Material_Code_PDF l) ->
  In x (join_at left right k) ->
  exists r, In r right /\ fst r = k /\ fst (fst x) = k /\ snd x = snd r.
Proof.
  intros Hcov. unfold join_at.
  destruct (filter (fun l => (Material_Code_PDF l =? k)%string) left) as [ | l ls] eqn:El.
  - intros H. apply in_map_iff in H as [r [<- Hr]].
    apply filter_In in Hr as [Hr Hk]. apply String.eqb_eq in Hk.
    exists r. repeat split; assumption.
  - assert (Hl : In l left /\ Material_Code_PDF l = k).
    { assert (H : In l (filter (fun l => (Material_Code_PDF l =? k)%string) left))
        by (rewrite El; left; reflexivity).
      apply filter_In in H as [H1 H2]. apply String.eqb_eq in H2. split; assumption. }
    destruct Hl as [Hl Hk]. destruct (Hcov l Hl) as [r0 [Hr0 Hf]].
    assert (Hin : In r0 (filter (fun r => (fst r =? k)%string) right)).
    { apply filter_In. split; [ exact Hr0 | ]. apply String.eqb_eq. congruence. }
    destruct (filter (fun r => (fst r =? k)%string) right) as [ | r rs] eqn:Er;
      [ contradiction | ].
    intros H. apply in_flat_map in H as [l' [_ H]].
    apply in_map_iff in H as [r' [<- Hr']].
    assert (H : In r' (filter (fun r => (fst r =? k)%string) right))
      by (rewrite Er; exact Hr').
    apply filter_In in H as [H1 H2]. apply String.eqb_eq in H2.
    exists r'. repeat split; assumption.
Qed.

End RunFacts.


(** X16.  In a run that returns, every comparison row belongs to a line
    of the spreadsheet: its code is the code of a record the normalizer
    returned and its spreadsheet amount is the total of that record.  No
    row stands for a code that only the document has. *)
Theorem run_rows_have_a_spreadsheet_line
  (series_sum : list float -> float) (excel_upload : Sheet) (analysis : AnalyzeResult)
  (tolerance : float) (excel_df : list ExcelRow) (report : Report) (r : CompRow) :
  load_and_clean_excel excel_upload = Ok excel_df ->
  start_reconciliation series_sum excel_upload analysis tolerance = Ok report ->
  In r (comp_df report) ->
  exists x, In x excel_df /\ Material_Code x = Code r /\ Total_EXCEL x = EXCEL r.
Proof.
  intros Hload Hrun Hr.
  pose proof (ExcelFacts.load_and_clean_excel_signed _ _ Hload) as Hsigned.
  rewrite Forall_forall in Hsigned.
  unfold start_reconciliation in Hrun. rewrite Hload in Hrun. cbn [bind] in Hrun.
  destruct (ExtractFacts.extract_pdf_data_keeps analysis (map Material_Code excel_df))
    as [pdf_df [pdf_summary [Hx Hkept]]].
  rewrite Hx in Hrun. cbn [bind] in Hrun.
  destruct (merge_and_compare pdf_df excel_df tolerance) as [rows | e] eqn:Hm;
    cbn [bind] in Hrun; [ | discriminate ].
  destruct (overall_accuracy rows) as [acc | e]; cbn [bind] in Hrun; [ | discriminate ].
  injection Hrun as <-. cbn [comp_df] in Hr.
  unfold merge_and_compare, merge_outer in Hm.
  destruct pdf_df as [ | p ps]; [ discriminate | ].
  cbn [bind] in Hm. injection Hm as <-.
  apply in_map_iff in Hr as [x0 [<- Hx0]].
  apply in_flat_map in Hx0 as [k [_ Hx0]].
  destruct (RunFacts.join_at_right_side (p :: ps) (right_frame excel_df) k x0)
    as [r0 [Hr0 [Hk [Hcode Hamt]]]]; [ | exact Hx0 | ].
  - intros l Hl. rewrite Forall_forall in Hkept. destruct (Hkept l Hl) as [Hin _].
    apply in_map_iff in Hin as [y [Hy Hiny]].
    exists (Material_Code y, Total_EXCEL y). split; [ | exact Hy ].
    unfold right_frame. apply in_map_iff. exists y. split; [ reflexivity | exact Hiny ].
  - unfold right_frame in Hr0. apply in_map_iff in Hr0 as [y [Hy Hiny]].
    exists y. split; [ exact Hiny | ].
    destruct x0 as [[k0 p0] e0]. simpl in Hcode, Hamt. subst k0 e0 r0.
    simpl in Hk. destruct (Hsigned y Hiny) as [_ [_ Ht]].
    simpl. rewrite (StatusFacts.fillna0_signed _ Ht). split; [ exact Hk | reflexivity ].
Qed.

Lemma run_rows_have_a_spreadsheet_line_witness :
  exists x,
    In x [ {| Material_Code := "A1"; Qty_EXCEL := Float.of_int 5;
              Tax_EXCEL := Float.of_int 10; Total_EXCEL := Float.of_int 110 |} ]
    /\ Material_Code x = "A1" /\ Total_EXCEL x = Float.of_int 110.
Proof.
  apply (run_rows_have_a_spreadsheet_line sum_left sheet_scenario
           (analysis_scenario "110.00") float_10
           [ {| Material_Code := "A1"; Qty_EXCEL := Float.of_int 5;
                Tax_EXCEL := Float.of_int 10; Total_EXCEL := Float.of_int 110 |} ]
           {| comp_df :=
                [ {| Code := "A1"; PDF := Float.of_int 110; EXCEL := Float.of_int 110;
                     Status := Match |} ];
              grand_totals :=
                summary_results sum_left
                  {| Gross_Total_Qty := Float.of_int 5;
                     Total_Tax_Footer := Float.of_int 10;
                     Grand_Total_Footer := Float.of_int 110 |}
                  [ {| Material_Code := "A1"; Qty_EXCEL := Float.of_int 5;
                       Tax_EXCEL := Float.of_int 10; Total_EXCEL := Float.of_int 110 |} ]
                  float_10;
              accuracy := Float.of_int 100 |}
           {| Code := "A1"; PDF := Float.of_int 110; EXCEL := Float.of_int 110;
              Status := Match |}).
  - reflexivity.
  - reflexivity.
  - left. reflexivity.
Defined.

(* ================================================================= *)
(** ** Codes and amounts *)

Module CodeFacts.

Lemma remove_nothing (s : string) :
  Str.contains "TR-" s = false -> Str.remove_all "TR-" s = s.
Proof.
  unfold Str.remove_all.
  induction s as [ | c r IH]; intros H.
  - reflexivity.
  - cbn [Str.contains] in H. apply orb_false_iff in H as [Hp Hr].
    cbn [Str.remove_from]. rewrite Hp, (IH Hr). reflexivity.
Qed.

Lemma remove_leading (s : string) :
  Str.remove_all "TR-" ("TR-" ++ s) = Str.remove_all "TR-" s.
Proof. destruct s; reflexivity. Qed.

(** What [visit_item] returns: the list it was given, or that list with
    one line item whose amount is the coerced amount of the candidate. *)
Lemma visit_item_cases (codes : list string) (acc : list LineItem) (item : ItemObject)
  (acc' : list LineItem) :
  visit_item codes acc item = Ok acc' ->
  acc' = acc
  \/ exists c amt,
       clean_num_strict (Amount item) = Ok amt
       /\ Float.eqb amt Float.zero = false
       /\ acc' = (acc ++ [{| Material_Code_PDF := c; Total_PDF := amt |}])%list.
Proof.
  assert (Hsame : Ok acc = Ok acc' ->
            acc' = acc
            \/ exists c amt,
                 clean_num_strict (Amount item) = Ok amt
                 /\ Float.eqb amt Float.zero = false
                 /\ acc' = (acc ++ [{| Material_Code_PDF := c; Total_PDF := amt |}])%list).
  { intros H. injection H as <-. left. reflexivity. }
  unfold visit_item.
  destruct (ProductCode item) as [p | ]; [ | exact Hsame ].
  destruct (content p) as [c | ]; [ | exact Hsame ].
  destruct (Str.is_empty c); [ exact Hsame | ].
  destruct (clean_num_strict (Amount item)) as [amt | e]; cbn [bind]; [ | discriminate ].
  destruct (negb (code_in (Str.strip c) codes)); [ exact Hsame | ].
  destruct (Str.contains "total" (Str.lower (Str.strip c))); cbn [orb]; [ exact Hsame | ].
  destruct (Float.eqb amt Float.zero) eqn:Hz; [ exact Hsame | ].
  intros H. injection H as <-. right. exists (Str.strip c), amt.
  repeat split. exact Hz.
Qed.

Lemma visit_item_plain (codes : list string) (acc : list LineItem) (item : ItemObject) :
  Forall plain_amount acc ->
  exists acc', visit_item codes acc item = Ok acc' /\ Forall plain_amount acc'.
Proof.
  intros Hacc.
  destruct (visit_item codes acc item) as [acc' | e] eqn:E.
  - exists acc'. split; [ reflexivity | ].
    destruct (visit_item_cases codes acc item acc' E) as [-> | [c [amt [Ha [Hz ->]]]]];
      [ exact Hacc | ].
    apply Forall_app. split; [ exact Hacc | ].
    constructor; [ | constructor ]. split; [ | exact Hz ]. simpl.
    destruct (CleanFacts.clean_num_strict_returns (Amount item)) as [y [Hy Hs]].
    congruence.
  - exfalso. revert E. unfold visit_item in *.
    destruct (ProductCode item) as [p | ]; [ | discriminate ].
    destruct (content p) as [c | ]; [ | discriminate ].
    destruct (Str.is_empty c); [ discriminate | ].
    destruct (CleanFacts.clean_num_strict_returns (Amount item)) as [amt [Ha _]].
    rewrite Ha. cbn [bind].
    destruct (negb (code_in (Str.strip c) codes)); [ discriminate | ].
    destruct (Str.contains "total" (Str.lower (Str.strip c)) || Float.eqb amt Float.zero);
      discriminate.
Qed.

Lemma visit_invoice_plain (codes : list string) (st : list LineItem * Summary)
  (invoice : Invoice) :
  Forall plain_amount (fst st) ->
  exists st', visit_invoice codes st invoice = Ok st' /\ Forall plain_amount (fst st').
Proof.
  destruct st as [acc summary]. intros Hacc.
  unfold visit_invoice.
  assert (Hloop : exists acc',
             match Items invoice with
             | Some (i :: arr) => for_each (visit_item codes) (i :: arr) acc
             | _ => Ok acc
             end = Ok acc' /\ Forall plain_amount acc').
  { destruct (Items invoice) as [[ | i arr] | ].
    - exists acc. split; [ reflexivity | exact Hacc ].
    - exact (ExtractFacts.for_each_invariant (visit_item codes) (Forall plain_amount)
               (fun s a => visit_item_plain codes s a) (i :: arr) acc Hacc).
    - exists acc. split; [ reflexivity | exact Hacc ]. }
  destruct Hloop as [acc' [H1 H2]]. rewrite H1. cbn [bind].
  destruct (CleanFacts.clean_num_strict_returns (TotalTax invoice)) as [tax [Ht _]].
  destruct (CleanFacts.clean_num_strict_returns (InvoiceTotal invoice)) as [tot [Hi _]].
  rewrite Ht, Hi. eexists. split; [ reflexivity | exact H2 ].
Qed.

(** With a clear sign bit, a number that is not zero and no NaN is above
    zero. *)
Lemma plain_is_positive (x : float) :
  Float.sign_clear x = true -> Float.eqb x Float.zero = false ->
  Float.is_nan x = false -> Float.ltb Float.zero x = true.
Proof.
  destruct x as [s | s | | s m e]; simpl; try discriminate;
    destruct s; simpl; intros; (discriminate || reflexivity).
Qed.

End CodeFacts.

(** X17.  Cleaning a spreadsheet code removes a leading ["TR-"], leaves a
    code without ["TR-"] as it is apart from the blanks at its ends, and
    turns a missing cell into the text ["nan"]. *)
Theorem clean_code_drops_the_prefix :
  (forall s : string, clean_code (Val ("TR-" ++ s)) = clean_code (Val s))
  /\ (forall s : string,
         Str.contains "TR-" s = false -> clean_code (Val s) = Str.strip s)
  /\ clean_code NaN = "nan".
Proof.
  split; [ | split ].
  - intros s. unfold clean_code. cbn [cell_str].
    rewrite CodeFacts.remove_leading. reflexivity.
  - intros s H. unfold clean_code. cbn [cell_str].
    rewrite (CodeFacts.remove_nothing s H). reflexivity.
  - reflexivity.
Qed.

Lemma clean_code_drops_the_prefix_witness :
  clean_code (Val " A1-T ") = "A1-T".
Proof.
  apply (proj1 (proj2 clean_code_drops_the_prefix) " A1-T "). reflexivity.
Defined.

(** X18.  Every amount in the frame of line items has a clear sign bit
    and is not zero: unless it is a NaN, it is above zero. *)
Theorem line_item_amounts_are_positive (analysis : AnalyzeResult) (codes : list string) :
  exists items summary,
    extract_pdf_data analysis codes = Ok (items, summary)
    /\ forall it, In it items ->
         Float.sign_clear (Total_PDF it) = true
         /\ Float.eqb (Total_PDF it) Float.zero = false
         /\ (Float.is_nan (Total_PDF it) = false ->
             Float.ltb Float.zero (Total_PDF it) = true).
Proof.
  destruct (FrameShape.extract_pdf_data_shape analysis codes) as [all [s' [Hloop H]]].
  do 2 eexists. split; [ exact H | ].
  destruct (ExtractFacts.for_each_invariant (visit_invoice codes)
              (fun st => Forall plain_amount (fst st))
              (fun s a => CodeFacts.visit_invoice_plain codes s a)
              (documents analysis) ([], summary0) (Forall_nil _))
    as [st [H1 H2]].
  rewrite Hloop in H1. injection H1 as <-. simpl in H2.
  intros it Hit. apply ExtractFacts.drop_duplicates_from_incl in Hit.
  rewrite Forall_forall in H2. destruct (H2 it Hit) as [Hs Hz].
  split; [ exact Hs | ]. split; [ exact Hz | ].
  apply CodeFacts.plain_is_positive; assumption.
Qed.

(* ================================================================= *)
(** ** One row per spreadsheet line *)

Module UniqueFacts.

(** Among rows with distinct keys, a key that occurs selects one row. *)
Lemma filter_unique {A : Type} (f : A -> string) (l : list A) (k : string) :
  NoDup (map f l) -> In k (map f l) ->
  exists x, filter (fun y => (f y =? k)%string) l = [x] /\ f x = k.
Proof.
  induction l as [ | a l IH]; simpl; intros Hnd Hin.
  - contradiction.
  - inversion Hnd as [ | ? ? Ha Hl]; subst.
    destruct (String.eqb_spec (f a) k) as [E | E].
    + exists a. split; [ | exact E ]. f_equal.
      apply MergeFacts.filter_none. intros y Hy. apply String.eqb_neq.
      intros E'. apply Ha. rewrite E, <- E'. apply in_map, Hy.
    + destruct Hin as [Hin | Hin]; [ contradiction | ].
      exact (IH Hl Hin).
Qed.

Lemma filter_absent {A : Type} (f : A -> string) (l : list A) (k : string) :
  ~ In k (map f l) -> filter (fun y => (f y =? k)%string) l = [].
Proof.
  intros H. apply MergeFacts.filter_none. intros y Hy. apply String.eqb_neq.
  intros E. apply H. rewrite <- E. apply in_map, Hy.
Qed.

(** With distinct keys on both sides, a key of the right side has one
    joined row. *)
Lemma join_at_single (left : list LineItem) (right : list (string * float)) (k : string) :
  NoDup (map Material_Code_PDF left) -> NoDup (map fst right) ->
  In k (map fst right) ->
  exists x, join_at left right k = [x] /\ fst (fst x) = k.
Proof.
  intros Hl Hr Hk. unfold join_at.
  destruct (filter_unique fst right k Hr Hk) as [r [Er _]]. rewrite Er.
  destruct (in_dec string_dec k (map Material_Code_PDF left)) as [Hin | Hout].
  - destruct (filter_unique Material_Code_PDF left k Hl Hin) as [l [El _]]. rewrite El.
    eexists. repeat split.
  - rewrite (filter_absent Material_Code_PDF left k Hout).
    eexists. repeat split.
Qed.

Lemma codes_of_single_rows (tolerance : float) (left : list LineItem)
  (right : list (string * float)) (keys : list string) :
  (forall k, In k keys -> exists x, join_at left right k = [x] /\ fst (fst x) = k) ->
  map Code (map (comp_row tolerance) (flat_map (join_at left right) keys)) = keys.
Proof.
  induction keys as [ | k keys IH]; simpl; intros H.
  - reflexivity.
  - destruct (H k (or_introl eq_refl)) as [[[k0 p0] e0] [E Hk]]. rewrite E.
    simpl in Hk. subst k0. simpl. f_equal. apply IH.
    intros k' Hk'. apply H. right. exact Hk'.
Qed.

(** The keys of the join when every left key is a right key and the right
    keys are distinct: the right keys, in some order. *)
Lemma join_keys_are_right_keys (a b : list string) :
  incl a b -> NoDup b -> Permutation (join_keys (a ++ b)%list) b.
Proof.
  intros Hincl Hb. apply NoDup_Permutation.
  - apply MergeFacts.join_keys_NoDup.
  - exact Hb.
  - intros k. rewrite MergeFacts.join_keys_In. split.
    + intros H. apply in_app_or in H as [H | H]; [ apply Hincl, H | exact H ].
    + intros H. apply in_or_app. right. exact H.
Qed.

Lemma right_frame_keys (excel_df : list ExcelRow) :
  map fst (right_frame excel_df) = map Material_Code excel_df.
Proof. unfold right_frame. rewrite map_map. reflexivity. Qed.

End UniqueFacts.

(** X19.  When the line items have distinct codes, the spreadsheet
    records have distinct codes and every line item code is a
    spreadsheet code, the merge has two outcomes.  With at least one
    line item it makes exactly one comparison row per spreadsheet record:
    the codes of [comp_df] are the spreadsheet codes, each once.  With no
    line item it raises [KeyError] and makes no row, whatever the
    spreadsheet holds. *)
Theorem one_row_per_spreadsheet_line
  (pdf_df : list LineItem) (excel_df : list ExcelRow) (tolerance : float) :
  NoDup (map Material_Code_PDF pdf_df) ->
  NoDup (map Material_Code excel_df) ->
  incl (map Material_Code_PDF pdf_df) (map Material_Code excel_df) ->
  match pdf_df with
  | [] => merge_and_compare pdf_df excel_df tolerance = Raise KeyError
  | _ :: _ =>
      exists rows,
        merge_and_compare pdf_df excel_df tolerance = Ok rows
        /\ Permutation (map Code rows) (map Material_Code excel_df)
        /\ List.length rows = List.length excel_df
  end.
Proof.
  intros Hl Hr Hincl.
  destruct pdf_df as [ | p ps]; [ reflexivity | ].
  eexists. split; [ reflexivity | ].
  assert (Hperm : Permutation
                    (map Code
                       (map (comp_row tolerance)
                          (flat_map (join_at (p :: ps) (right_frame excel_df))
                             (join_keys
                                (map Material_Code_PDF (p :: ps)
                                 ++ map fst (right_frame excel_df))%list))))
                    (map Material_Code excel_df)).
  { rewrite UniqueFacts.right_frame_keys.
    rewrite UniqueFacts.codes_of_single_rows.
    - apply UniqueFacts.join_keys_are_right_keys; assumption.
    - intros k Hk. apply (proj1 (MergeFacts.join_keys_In _ _)) in Hk.
      assert (Hk' : In k (map fst (right_frame excel_df))).
      { rewrite UniqueFacts.right_frame_keys.
        apply in_app_or in Hk as [Hk | Hk]; [ apply Hincl, Hk | exact Hk ]. }
      destruct (UniqueFacts.join_at_single (p :: ps) (right_frame excel_df) k Hl)
        as [x [E Hx]]; [ rewrite UniqueFacts.right_frame_keys; exact Hr | exact Hk' | ].
      exists x. split; assumption. }
  split; [ exact Hperm | ].
  apply Permutation_length in Hperm. rewrite !length_map in Hperm.
  rewrite length_map. exact Hperm.
Qed.

(** The item ["B2"] against the lines ["A1"] and ["B2"] gives two rows;
    no item against the line ["A1"] gives [KeyError]. *)
Lemma one_row_per_spreadsheet_line_witness :
  (exists rows,
      merge_and_compare [item_b2] [line_a1; line_b2] float_10 = Ok rows
      /\ Permutation (map Code rows) ["A1"; "B2"]
      /\ List.length rows = 2)
  /\ merge_and_compare [] [line_a1] float_10 = Raise KeyError.
Proof.
  split.
  - apply (one_row_per_spreadsheet_line [item_b2] [line_a1; line_b2] float_10).
    + repeat constructor. simpl. tauto.
    + repeat constructor; simpl; intuition discriminate.
    + intros k [<- | []]. right. left. reflexivity.
  - apply (one_row_per_spreadsheet_line [] [line_a1] float_10).
    + constructor.
    + repeat constructor. simpl. tauto.
    + intros k [].
Defined.
